(** * Cost alerter: tiered response policy of [src/lambda/cost_alerter.py]

    A shallow embedding of the cost-alerter Lambda handler and of the
    helpers it drives ([format_top_services], [list_active_resources],
    [trigger_nuke_warning], [execute_resource_nuke], [lambda_handler]),
    followed by the properties of its threshold policy, its safety gate
    and its cleanup sequence.

    Modelling conventions.
    - Amounts are Python floats.  A finite float is the rational it
      denotes and float comparison is the comparison of these rationals,
      so amounts are values of [Q]; the literal [0.01] is the rational of
      the binary64 nearest to one hundredth.
    - Every call that leaves the process (boto3 clients, the ntfy HTTP
      post, the two Cost Explorer wrappers) is a [Call]; a program is a
      tree of calls ([Prog]) and is run against an arbitrary stateful
      handler, which yields the returned value and the trace of calls
      with their answers.
    - A boto3 call answers [inl e] when it raises [ClientError] (with
      [e] its [str()]) and [inr v] when it returns [v].
    - [print] statements are not part of the model. *)

From Stdlib Require Import List String Ascii ZArith QArith Qround Bool Lia.
From Stdlib Require Import DecimalString Sorted Permutation.
Import ListNotations.

Open Scope list_scope.
Open Scope string_scope.

(* ================================================================== *)
(** ** Text helpers *)

(** The line feed, [chr(10)] / ["\n"] in the source. *)
Definition nl : string := String (ascii_of_nat 10) EmptyString.

(** [sep.join(parts)] *)
Definition join (sep : string) (parts : list string) : string :=
  String.concat sep parts.

(** [str(n)] of a non-negative integer, as f-strings print a [len]. *)
Definition str_nat (n : nat) : string :=
  NilZero.string_of_uint (Nat.to_uint n).

(** [str.lower()] on ASCII letters.  No character outside ASCII
    lowercases to one of [t], [r], [u], [e], so the comparison with
    ['true'] that the source makes agrees with this byte-wise version. *)
Definition lower_ascii (c : ascii) : ascii :=
  let n := nat_of_ascii c in
  if andb (Nat.leb 65 n) (Nat.leb n 90) then ascii_of_nat (n + 32) else c.

Fixpoint lower (s : string) : string :=
  match s with
  | EmptyString => EmptyString
  | String c s' => String (lower_ascii c) (lower s')
  end.

(** A message built by an f-string: literal text and floats printed by
    [str()].  The shortest-repr printing of a float is kept symbolic. *)
Inductive Piece : Set :=
| Lit (s : string)
| Flt (x : Q).

Definition Text : Set := list Piece.

(* ================================================================== *)
(** ** Amounts *)

(** The float literal [0.01]: 5764607523034235 * 2^-59. *)
Definition cutoff : Q := 5764607523034235 # 576460752303423488.

(** [a >= b] and [a > b] on floats. *)
Definition ge_float (a b : Q) : bool := Qle_bool b a.
Definition gt_float (a b : Q) : bool := negb (Qle_bool a b).

(** Round half to even, the rounding of [format(x, '.2f')] applied to
    the exact value of the float. *)
Definition round_half_even (q : Q) : Z :=
  let f := Qfloor q in
  let r := q - inject_Z f in
  match Qcompare r (1 # 2) with
  | Lt => f
  | Gt => (f + 1)%Z
  | Eq => if Z.even f then f else (f + 1)%Z
  end.

Definition pad2 (n : Z) : string :=
  let s := NilZero.string_of_uint (N.to_uint (Z.to_N n)) in
  if (n <? 10)%Z then "0" ++ s else s.

(** [f"{cost:.2f}"] *)
Definition fixed2 (cost : Q) : string :=
  let neg := negb (Qle_bool 0 cost) in
  let cents := round_half_even ((if neg then - cost else cost) * 100) in
  (if neg then "-" else "")
    ++ NilZero.string_of_uint (N.to_uint (Z.to_N (cents / 100))) ++ "."
    ++ pad2 (cents mod 100).

(* ================================================================== *)
(** ** [format_top_services] *)

(** [dict.items()]: the entries in insertion order. *)
Definition Breakdown : Set := list (string * Q).

(** [sorted(items, key=lambda x: x[1], reverse=True)].  Python's sort is
    stable, also under [reverse=True]: entries of equal cost keep their
    original order, so the result is the stable descending sort. *)
Fixpoint insert_desc (x : string * Q) (l : list (string * Q)) : list (string * Q) :=
  match l with
  | [] => [x]
  | y :: l' =>
      if Qle_bool (snd y) (snd x) then x :: y :: l'
      else y :: insert_desc x l'
  end.

Fixpoint sorted_desc (l : list (string * Q)) : list (string * Q) :=
  match l with
  | [] => []
  | x :: l' => insert_desc x (sorted_desc l')
  end.

(** [x] is listed before [y] only if it costs at least as much. *)
Definition before (x y : string * Q) : Prop := (snd y <= snd x)%Q.

(** The entries that get a line: the first [top_n] of the sorted items,
    then those whose cost exceeds the cutoff.  Here [top_n] is a count,
    as in every call the module makes (the default, 5);
    [listed_services_int], below, takes any int. *)
Definition listed_services (service_breakdown : Breakdown) (top_n : nat)
  : list (string * Q) :=
  let sorted_services := firstn top_n (sorted_desc service_breakdown) in
  filter (fun x => gt_float (snd x) cutoff) sorted_services.

Definition service_line (x : string * Q) : string :=
  "  - " ++ fst x ++ ": $" ++ fixed2 (snd x).

Definition format_top_services_n (service_breakdown : Breakdown) (top_n : nat)
  : string :=
  match map service_line (listed_services service_breakdown top_n) with
  | [] => "  (No significant costs yet)"
  | lines => join nl lines
  end.

(** The default [top_n=5]. *)
Definition format_top_services (service_breakdown : Breakdown) : string :=
  format_top_services_n service_breakdown 5.

Definition spec_breakdown : Breakdown :=
  [("A", 40); ("B", 35); ("C", 4611686018427388 # 4611686018427387904);
   ("D", 20); ("E", 10); ("F", 5)]%Q.

(* ================================================================== *)
(** ** External calls and programs *)

(** [str(e)] of a raised [botocore.exceptions.ClientError]. *)
Definition ClientError : Set := string.

(** What a boto3 call does: raise [ClientError] or return.  A call can
    also raise an exception of another class, which no [except] clause
    of the module catches; the runs in which that happens are those of
    [run_faulty], below. *)
Definition Result (A : Set) : Set := (ClientError + A)%type.

Record Instance : Set := { InstanceId : string }.
Record Reservation : Set := { Instances : list Instance }.
Record DBInstance : Set :=
  { DBInstanceIdentifier : string; DBInstanceStatus : string }.
Record NatGateway : Set := { NatGatewayId : string }.

(** The dictionary returned by [get_current_month_costs]. *)
Record CostInfo : Set :=
  { total_cost : Q;
    service_breakdown : Breakdown;
    currency : string;
    period : string }.

(** The calls that leave the process, indexed by the type of their
    answer.  [get_current_month_costs] re-raises [ClientError];
    [get_forecasted_month_end_cost] turns it into [None]; both do float
    and calendar arithmetic on the Cost Explorer answer and are taken as
    the cost source.  [send_ntfy_alert] answers whether the post got
    status 200, and [False] on [URLError]. *)
Inductive Call : Set -> Set :=
| GetCurrentMonthCosts : Call (Result CostInfo)
| GetForecastedMonthEndCost : Call (option Q)
| DescribeInstances (states : list string) : Call (Result (list Reservation))
| DescribeDbInstances : Call (Result (list DBInstance))
| DescribeNatGateways (states : list string) : Call (Result (list NatGateway))
| ListFunctions : Call (Result (list string))
| ListBuckets : Call (Result (list string))
| StopInstances (ids : list string) : Call (Result unit)
| DeleteNatGateway (id : string) : Call (Result unit)
| StopDbInstance (id : string) : Call (Result unit)
| SendNtfyAlert (topic : string) (title message : Text)
                (priority : string) (tags : list string) : Call bool.

(** A program: return a value, or make a call and continue with its
    answer. *)
Inductive Prog (A : Type) : Type :=
| Ret (a : A)
| Vis (R : Set) (c : Call R) (k : R -> Prog A).

Arguments Ret {A} a.
Arguments Vis {A R} c k.

Fixpoint bind {A B : Type} (m : Prog A) (f : A -> Prog B) : Prog B :=
  match m with
  | Ret a => f a
  | Vis c k => Vis c (fun r => bind (k r) f)
  end.

Definition call {R : Set} (c : Call R) : Prog R := Vis c Ret.

Declare Scope prog_scope.
Delimit Scope prog_scope with prog.
Notation "x <- m ;; k" := (bind m (fun x => k))
  (at level 61, m at next level, right associativity) : prog_scope.
Notation "m ;; k" := (bind m (fun _ => k))
  (at level 61, right associativity) : prog_scope.
Open Scope prog_scope.

(** One entry of a trace: a call and the answer it got. *)
Inductive Event : Type :=
| Ev (R : Set) (c : Call R) (r : R).

Arguments Ev {R} c r.

(** The outcome of a run: the value, the trace, the final world. *)
Record Outcome (A W : Type) : Type :=
  { value : A; trace : list Event; world : W }.

Arguments value {A W} o.
Arguments trace {A W} o.
Arguments world {A W} o.

(** A handler answers each call from the state of the world and moves
    the world on. *)
Definition Handler (W : Type) : Type := forall R : Set, Call R -> W -> R * W.

Fixpoint run {A W : Type} (h : Handler W) (p : Prog A) (w : W) : Outcome A W :=
  match p with
  | Ret a => {| value := a; trace := []; world := w |}
  | Vis c k =>
      let (r, w1) := h _ c w in
      let o := run h (k r) w1 in
      {| value := value o; trace := Ev c r :: trace o; world := world o |}
  end.

(* ================================================================== *)
(** ** Configuration *)

(** The process environment, as the handler reads it.  The two
    thresholds are the floats parsed by [float(...)]; the flags are the
    raw strings.  [None] is an unset variable. *)
Record Environ : Set :=
  { ALERT_THRESHOLD : option Q;
    CRITICAL_THRESHOLD : option Q;
    NTFY_TOPIC : option string;
    ENABLE_AUTO_NUKE : option string;
    NUKE_DRY_RUN : option string;
    SEND_DAILY_SUMMARY : option string }.

(** [os.environ.get(name, default)] *)
Definition environ_get {A : Type} (v : option A) (default : A) : A :=
  match v with
  | Some x => x
  | None => default
  end.

(** [os.environ.get(name, default).lower() == 'true'] *)
Definition flag (v : option string) (default : string) : bool :=
  String.eqb (lower (environ_get v default)) "true".

Definition enable_nuke (env : Environ) : bool :=
  flag (ENABLE_AUTO_NUKE env) "false".

Definition dry_run (env : Environ) : bool :=
  flag (NUKE_DRY_RUN env) "true".

(** [float(os.environ.get('ALERT_THRESHOLD', '10'))] and
    [float(os.environ.get('CRITICAL_THRESHOLD', '50'))].  A value that
    [float] rejects raises before any call is made and is not a value
    of [Environ]. *)
Definition alert_level (env : Environ) : Q :=
  environ_get (ALERT_THRESHOLD env) 10.

Definition critical_level (env : Environ) : Q :=
  environ_get (CRITICAL_THRESHOLD env) 50.

Definition ntfy_topic (env : Environ) : string :=
  environ_get (NTFY_TOPIC env) "aws-cost-alerts".

(* ================================================================== *)
(** ** [list_active_resources] *)

(** [if count > 0: resources.append(f"{label}: {count}")] *)
Definition append_count (resources : list string) (label : string) (count : nat)
  : list string :=
  if Nat.ltb 0 count then List.app resources [label ++ ": " ++ str_nat count]
  else resources.

(** One [try: ... except ClientError: pass] block of the listing. *)
Definition counted {A : Set} (resources : list string) (label : string)
  (count : A -> nat) (r : Result A) : list string :=
  match r with
  | inr v => append_count resources label (count v)
  | inl _ => resources
  end.

Definition instance_count (reservations : list Reservation) : nat :=
  list_sum (map (fun r => List.length (Instances r)) reservations).

Definition list_active_resources : Prog (list string) :=
  let resources := [] in
  instances <- call (DescribeInstances ["running"; "pending"]) ;;
  let resources := counted resources "EC2 Instances" instance_count instances in
  dbs <- call DescribeDbInstances ;;
  let resources := counted resources "RDS Instances" (@List.length _) dbs in
  nat_gws <- call (DescribeNatGateways ["available"; "pending"]) ;;
  let resources := counted resources "NAT Gateways" (@List.length _) nat_gws in
  functions <- call ListFunctions ;;
  let resources := counted resources "Lambda Functions" (@List.length _) functions in
  buckets <- call ListBuckets ;;
  let resources := counted resources "S3 Buckets" (@List.length _) buckets in
  Ret resources.

(** [chr(10).join(f'  - {r}' for r in items)] *)
Definition bullets (items : list string) : string :=
  join nl (map (fun r => "  - " ++ r) items).

(* ================================================================== *)
(** ** [trigger_nuke_warning] *)

Definition warning_title : Text := [Lit "CRITICAL: AWS Cost Emergency"].

Definition warning_message (cost_info : CostInfo) (critical_threshold : Q)
  (resources : list string) : Text :=
  let resource_list :=
    match resources with
    | [] => "  (Unable to list resources)"
    | _ => bullets resources
    end in
  [ Lit "CRITICAL COST ALERT!"; Lit nl; Lit nl;
    Lit "Current AWS spending: $"; Flt (total_cost cost_info); Lit " USD"; Lit nl;
    Lit "Critical threshold: $"; Flt critical_threshold; Lit " USD"; Lit nl;
    Lit "Period: "; Lit (period cost_info); Lit nl; Lit nl;
    Lit "Top services by cost:"; Lit nl;
    Lit (format_top_services (service_breakdown cost_info)); Lit nl; Lit nl;
    Lit "Active resources that may be nuked:"; Lit nl;
    Lit resource_list; Lit nl; Lit nl;
    Lit "ACTION REQUIRED: Review and terminate unnecessary resources immediately!";
    Lit nl; Lit nl;
    Lit "To prevent automated nuking, reduce costs below $";
    Flt critical_threshold; Lit " or adjust the threshold." ].

Definition trigger_nuke_warning (env : Environ) (cost_info : CostInfo)
  (critical_threshold : Q) : Prog unit :=
  resources <- list_active_resources ;;
  call (SendNtfyAlert (ntfy_topic env) warning_title
          (warning_message cost_info critical_threshold resources)
          "urgent" ["rotating_light"; "dollar"; "skull"]) ;;
  Ret tt.

(* ================================================================== *)
(** ** [execute_resource_nuke] *)

(** The dictionary it returns, by its ['status']. *)
Inductive NukeResult : Set :=
| Skipped (reason : string)
| DryRun (resources : list string)
| Executed (terminated errors : list string).

Definition status (r : NukeResult) : string :=
  match r with
  | Skipped _ => "skipped"
  | DryRun _ => "dry_run"
  | Executed _ _ => "executed"
  end.

Definition skipped_title : Text := [Lit "Nuke Skipped - Manual Action Required"].

Definition skipped_message : Text :=
  [ Lit "Auto-nuke is DISABLED."; Lit nl; Lit nl;
    Lit "To enable automatic resource cleanup, set ENABLE_AUTO_NUKE=true.";
    Lit nl; Lit nl;
    Lit "For now, please manually review and terminate resources." ].

Definition dry_run_title : Text := [Lit "Nuke DRY RUN"].

Definition dry_run_message (resources : list string) : Text :=
  [ Lit "DRY RUN - Would terminate:"; Lit nl; Lit nl;
    Lit (bullets resources); Lit nl; Lit nl;
    Lit "Set NUKE_DRY_RUN=false to actually terminate resources." ].

Definition complete_title : Text := [Lit "Resource Nuke Complete"].

Definition complete_message (terminated errors : list string) : Text :=
  let shown (l : list string) :=
    match l with
    | [] => "  (none)"
    | _ => bullets l
    end in
  [ Lit "NUKE EXECUTED"; Lit nl; Lit nl;
    Lit "Actions taken:"; Lit nl;
    Lit (shown terminated); Lit nl; Lit nl;
    Lit "Errors:"; Lit nl;
    Lit (shown errors); Lit nl; Lit nl;
    Lit "Please verify the changes in your AWS console." ].

(** The two lists the cleanup fills in place. *)
Record Log : Set := { terminated : list string; errors : list string }.

Definition add_terminated (log : Log) (t : string) : Log :=
  {| terminated := List.app (terminated log) [t]; errors := errors log |}.

Definition add_error (log : Log) (e : string) : Log :=
  {| terminated := terminated log; errors := List.app (errors log) [e] |}.

(** [instance_ids]: every instance of every reservation, in order. *)
Definition instance_ids (reservations : list Reservation) : list string :=
  flat_map (fun reservation => map InstanceId (Instances reservation)) reservations.

(** Stop EC2 instances: one [stop_instances] call for all of them. *)
Definition stop_ec2 (log : Log) : Prog Log :=
  instances <- call (DescribeInstances ["running"]) ;;
  match instances with
  | inl e => Ret (add_error log ("EC2: " ++ e))
  | inr reservations =>
      let ids := instance_ids reservations in
      match ids with
      | [] => Ret log
      | _ =>
          r <- call (StopInstances ids) ;;
          match r with
          | inl e => Ret (add_error log ("EC2: " ++ e))
          | inr _ =>
              Ret (add_terminated log
                     ("Stopped " ++ str_nat (List.length ids) ++ " EC2 instances"))
          end
      end
  end.

(** The [for nat in nat_gws['NatGateways']] loop.  A [ClientError]
    leaves the loop; what was appended before it stays. *)
Fixpoint delete_each (nats : list NatGateway) (log : Log)
  : Prog (Log * option ClientError) :=
  match nats with
  | [] => Ret (log, None)
  | nat :: rest =>
      r <- call (DeleteNatGateway (NatGatewayId nat)) ;;
      match r with
      | inl e => Ret (log, Some e)
      | inr _ =>
          delete_each rest
            (add_terminated log ("Deleted NAT Gateway: " ++ NatGatewayId nat))
      end
  end.

Definition delete_nat_gateways (log : Log) : Prog Log :=
  nat_gws <- call (DescribeNatGateways ["available"]) ;;
  match nat_gws with
  | inl e => Ret (add_error log ("NAT Gateway: " ++ e))
  | inr nats =>
      out <- delete_each nats log ;;
      match out with
      | (log1, Some e) => Ret (add_error log1 ("NAT Gateway: " ++ e))
      | (log1, None) => Ret log1
      end
  end.

(** The [for db in dbs['DBInstances']] loop, with its inner
    [except ClientError: pass]. *)
Fixpoint stop_each (dbs : list DBInstance) (log : Log) : Prog Log :=
  match dbs with
  | [] => Ret log
  | db :: rest =>
      if String.eqb (DBInstanceStatus db) "available" then
        r <- call (StopDbInstance (DBInstanceIdentifier db)) ;;
        match r with
        | inl _ => stop_each rest log
        | inr _ =>
            stop_each rest
              (add_terminated log ("Stopped RDS: " ++ DBInstanceIdentifier db))
        end
      else stop_each rest log
  end.

Definition stop_rds (log : Log) : Prog Log :=
  dbs <- call DescribeDbInstances ;;
  match dbs with
  | inl e => Ret (add_error log ("RDS: " ++ e))
  | inr l => stop_each l log
  end.

(** The code after the two gate tests: the actual cleanup. *)
Definition nuke (env : Environ) : Prog NukeResult :=
  let log := {| terminated := []; errors := [] |} in
  log <- stop_ec2 log ;;
  log <- delete_nat_gateways log ;;
  log <- stop_rds log ;;
  call (SendNtfyAlert (ntfy_topic env) complete_title
          (complete_message (terminated log) (errors log))
          "urgent" ["skull"; "check"]) ;;
  Ret (Executed (terminated log) (errors log)).

Definition execute_resource_nuke (env : Environ) : Prog NukeResult :=
  if negb (enable_nuke env) then
    call (SendNtfyAlert (ntfy_topic env) skipped_title skipped_message
            "high" ["hand"; "warning"]) ;;
    Ret (Skipped "auto_nuke_disabled")
  else if dry_run env then
    resources <- list_active_resources ;;
    call (SendNtfyAlert (ntfy_topic env) dry_run_title
            (dry_run_message resources) "high" ["test_tube"; "warning"]) ;;
    Ret (DryRun resources)
  else nuke env.

(* ================================================================== *)
(** ** [lambda_handler] *)

Inductive Tier : Set := Normal | Alert | Critical.

(** The [if / elif / else] of the handler: the critical test first. *)
Definition classify (current_cost alert_threshold critical_threshold : Q) : Tier :=
  if ge_float current_cost critical_threshold then Critical
  else if ge_float current_cost alert_threshold then Alert
  else Normal.

(** The [response] dictionary; [nuke_result] is the key that only the
    critical branch adds. *)
Record Report : Set :=
  { statusCode : Z;
    current_cost : Q;
    alert_threshold : Q;
    critical_threshold : Q;
    forecasted_cost : option Q;
    alert_sent : bool;
    nuke_triggered : bool;
    nuke_result : option NukeResult }.

(** [f"\nForecasted month-end cost: ${forecasted_cost}" if forecasted_cost else ""]:
    [None] and [0.0] are both falsy. *)
Definition forecast_msg (forecast : option Q) : Text :=
  match forecast with
  | Some f =>
      if Qeq_bool f 0 then []
      else [Lit nl; Lit "Forecasted month-end cost: $"; Flt f]
  | None => []
  end.

Definition alert_message (cost_info : CostInfo) (alert : Q) (forecast : option Q)
  : Text :=
  ([ Lit "AWS Cost Alert"; Lit nl; Lit nl;
    Lit "Current spending: $"; Flt (total_cost cost_info); Lit " USD"; Lit nl;
    Lit "Alert threshold: $"; Flt alert; Lit " USD"; Lit nl;
    Lit "Period: "; Lit (period cost_info) ]
  ++ forecast_msg forecast ++
  [ Lit nl; Lit nl;
    Lit "Top services by cost:"; Lit nl;
    Lit (format_top_services (service_breakdown cost_info)); Lit nl; Lit nl;
    Lit "Review your AWS resources to control costs." ])%list.

Definition summary_message (cost_info : CostInfo) (alert : Q) (forecast : option Q)
  : Text :=
  ([ Lit "AWS Daily Cost Summary"; Lit nl; Lit nl;
    Lit "Current spending: $"; Flt (total_cost cost_info); Lit " USD"; Lit nl;
    Lit "Alert threshold: $"; Flt alert; Lit " USD" ]
  ++ forecast_msg forecast ++
  [ Lit nl; Lit nl;
    Lit "Top services:"; Lit nl;
    Lit (format_top_services (service_breakdown cost_info)); Lit nl; Lit nl;
    Lit "All costs within limits." ])%list.

(** The handler.  [inl e] is the [ClientError] that
    [get_current_month_costs] re-raises and the handler lets through;
    [inr response] is the returned dictionary. *)
Definition lambda_handler (env : Environ) : Prog (Result Report) :=
  let alert := alert_level env in
  let critical := critical_level env in
  fetched <- call GetCurrentMonthCosts ;;
  match fetched with
  | inl e => Ret (inl e)
  | inr cost_info =>
      let cost := total_cost cost_info in
      forecast <- call GetForecastedMonthEndCost ;;
      let response :=
        {| statusCode := 200;
           current_cost := cost;
           alert_threshold := alert;
           critical_threshold := critical;
           forecasted_cost := forecast;
           alert_sent := false;
           nuke_triggered := false;
           nuke_result := None |} in
      match classify cost alert critical with
      | Critical =>
          trigger_nuke_warning env cost_info critical ;;
          result <- execute_resource_nuke env ;;
          Ret (inr {| statusCode := statusCode response;
                      current_cost := current_cost response;
                      alert_threshold := alert_threshold response;
                      critical_threshold := critical_threshold response;
                      forecasted_cost := forecasted_cost response;
                      alert_sent := true;
                      nuke_triggered := true;
                      nuke_result := Some result |})
      | Alert =>
          call (SendNtfyAlert (ntfy_topic env)
                  [Lit "AWS Cost Alert: $"; Flt cost]
                  (alert_message cost_info alert forecast)
                  "high" ["warning"; "dollar"]) ;;
          Ret (inr {| statusCode := statusCode response;
                      current_cost := current_cost response;
                      alert_threshold := alert_threshold response;
                      critical_threshold := critical_threshold response;
                      forecasted_cost := forecasted_cost response;
                      alert_sent := true;
                      nuke_triggered := nuke_triggered response;
                      nuke_result := nuke_result response |})
      | Normal =>
          (if flag (SEND_DAILY_SUMMARY env) "false" then
             call (SendNtfyAlert (ntfy_topic env)
                     [Lit "AWS Cost Summary: $"; Flt cost]
                     (summary_message cost_info alert forecast)
                     "low" ["chart_with_upwards_trend"; "white_check_mark"]) ;;
             Ret tt
           else Ret tt) ;;
          Ret (inr response)
      end
  end.

(* ================================================================== *)
(** ** Reading traces *)

(** What a call does to the account. *)
Inductive Kind : Set := CostQuery | Inventory | Notification | Mutation.

Definition kind {R : Set} (c : Call R) : Kind :=
  match c with
  | GetCurrentMonthCosts | GetForecastedMonthEndCost => CostQuery
  | DescribeInstances _ | DescribeDbInstances | DescribeNatGateways _
  | ListFunctions | ListBuckets => Inventory
  | StopInstances _ | DeleteNatGateway _ | StopDbInstance _ => Mutation
  | SendNtfyAlert _ _ _ _ _ => Notification
  end.

Definition event_kind (e : Event) : Kind :=
  match e with
  | Ev c _ => kind c
  end.

Definition is_kind (k : Kind) (e : Event) : bool :=
  match event_kind e, k with
  | CostQuery, CostQuery | Inventory, Inventory
  | Notification, Notification | Mutation, Mutation => true
  | _, _ => false
  end.

(** The number of calls of one kind in a trace. *)
Definition count_kind (k : Kind) (t : list Event) : nat :=
  List.length (filter (is_kind k) t).

(** Every call the program can make, whatever it is answered, satisfies
    [P]. *)
Fixpoint only (P : Kind -> Prop) {A : Type} (p : Prog A) : Prop :=
  match p with
  | Ret _ => True
  | Vis c k => P (kind c) /\ forall r, only P (k r)
  end.

(** The line a successful cleanup call adds to [terminated]. *)
Definition succeeded_entry (e : Event) : list string :=
  match e with
  | Ev c r =>
      match c in Call R return R -> list string with
      | StopInstances ids => fun r =>
          match r with
          | inr _ => ["Stopped " ++ str_nat (List.length ids) ++ " EC2 instances"]
          | inl _ => []
          end
      | DeleteNatGateway id => fun r =>
          match r with
          | inr _ => ["Deleted NAT Gateway: " ++ id]
          | inl _ => []
          end
      | StopDbInstance id => fun r =>
          match r with
          | inr _ => ["Stopped RDS: " ++ id]
          | inl _ => []
          end
      | _ => fun _ => []
      end r
  end.

(** The line a failed call of the cleanup adds to [errors]: every
    [ClientError] but the one of [stop_db_instance]. *)
Definition failed_entry (e : Event) : list string :=
  let report {A : Set} (label : string) (r : Result A) : list string :=
    match r with
    | inl err => [label ++ ": " ++ err]
    | inr _ => []
    end in
  match e with
  | Ev c r =>
      match c in Call R return R -> list string with
      | DescribeInstances _ => report "EC2"
      | StopInstances _ => report "EC2"
      | DescribeNatGateways _ => report "NAT Gateway"
      | DeleteNatGateway _ => report "NAT Gateway"
      | DescribeDbInstances => report "RDS"
      | _ => fun _ => []
      end r
  end.

(** A run extends the log by the entries of its trace. *)
Definition logged {W : Type} (log : Log) (o : Outcome Log W) : Prop :=
  terminated (value o)
    = (terminated log ++ flat_map succeeded_entry (trace o))%list /\
  errors (value o)
    = (errors log ++ flat_map failed_entry (trace o))%list.

(** The gateway deletions of a trace, each with its answer. *)
Definition deletion (e : Event) : list (string * Result unit) :=
  match e with
  | Ev c r =>
      match c in Call R return R -> list (string * Result unit) with
      | DeleteNatGateway id => fun r => [(id, r)]
      | _ => fun _ => []
      end r
  end.

Definition deletions (t : list Event) : list (string * Result unit) :=
  flat_map deletion t.

(** The answers to the gateway listings of a trace. *)
Definition gateway_listing (e : Event) : list (Result (list NatGateway)) :=
  match e with
  | Ev c r =>
      match c in Call R return R -> list (Result (list NatGateway)) with
      | DescribeNatGateways _ => fun r => [r]
      | _ => fun _ => []
      end r
  end.

(** The database stops of a trace, each with its answer. *)
Definition db_stop (e : Event) : list (string * Result unit) :=
  match e with
  | Ev c r =>
      match c in Call R return R -> list (string * Result unit) with
      | StopDbInstance id => fun r => [(id, r)]
      | _ => fun _ => []
      end r
  end.

(* ================================================================== *)
(** ** A scripted account, to run the handler on concrete inputs *)

(** An account whose answers do not change during the run. *)
Record Cloud : Type :=
  { costs : Result CostInfo;
    forecast : option Q;
    reservations : list string -> Result (list Reservation);
    databases : Result (list DBInstance);
    gateways : list string -> Result (list NatGateway);
    functions : Result (list string);
    buckets : Result (list string);
    stop_instances : list string -> Result unit;
    delete_nat_gateway : string -> Result unit;
    stop_db_instance : string -> Result unit;
    delivered : bool }.

Definition scripted (a : Cloud) : Handler unit :=
  fun R c w =>
    match c in Call R return R * unit with
    | GetCurrentMonthCosts => (costs a, w)
    | GetForecastedMonthEndCost => (forecast a, w)
    | DescribeInstances states => (reservations a states, w)
    | DescribeDbInstances => (databases a, w)
    | DescribeNatGateways states => (gateways a states, w)
    | ListFunctions => (functions a, w)
    | ListBuckets => (buckets a, w)
    | StopInstances ids => (stop_instances a ids, w)
    | DeleteNatGateway id => (delete_nat_gateway a id, w)
    | StopDbInstance id => (stop_db_instance a id, w)
    | SendNtfyAlert _ _ _ _ _ => (delivered a, w)
    end.

(** An account that spent [total], with two running instances, two
    gateways and two databases, where every call succeeds. *)
Definition account (total : Q) : Cloud :=
  {| costs := inr {| total_cost := total;
                     service_breakdown := [("Amazon EC2", total)];
                     currency := "USD";
                     period := "2024-05-01 to 2024-05-21" |};
     forecast := Some (total + 10);
     reservations := fun _ =>
       inr [ {| Instances := [ {| InstanceId := "i-1" |}; {| InstanceId := "i-2" |} ] |} ];
     databases :=
       inr [ {| DBInstanceIdentifier := "db-1"; DBInstanceStatus := "available" |};
             {| DBInstanceIdentifier := "db-2"; DBInstanceStatus := "available" |} ];
     gateways := fun _ =>
       inr [ {| NatGatewayId := "nat-1" |}; {| NatGatewayId := "nat-2" |};
             {| NatGatewayId := "nat-3" |} ];
     functions := inr ["cost-alerter"];
     buckets := inr [];
     stop_instances := fun _ => inr tt;
     delete_nat_gateway := fun _ => inr tt;
     stop_db_instance := fun _ => inr tt;
     delivered := true |}.

(** The same account where deleting gateway [nat-2] fails. *)
Definition account_gateway_failure (total : Q) : Cloud :=
  let a := account total in
  {| costs := costs a; forecast := forecast a; reservations := reservations a;
     databases := databases a; gateways := gateways a; functions := functions a;
     buckets := buckets a; stop_instances := stop_instances a;
     delete_nat_gateway := fun id =>
       if String.eqb id "nat-2" then inl "DependencyViolation" else inr tt;
     stop_db_instance := stop_db_instance a;
     delivered := delivered a |}.


(** Environments: nothing set; the gate open; the gate in dry run; the
    daily summary on. *)
Definition env_default : Environ :=
  {| ALERT_THRESHOLD := None; CRITICAL_THRESHOLD := None; NTFY_TOPIC := None;
     ENABLE_AUTO_NUKE := None; NUKE_DRY_RUN := None; SEND_DAILY_SUMMARY := None |}.

Definition env_execute : Environ :=
  {| ALERT_THRESHOLD := None; CRITICAL_THRESHOLD := None; NTFY_TOPIC := None;
     ENABLE_AUTO_NUKE := Some "true"; NUKE_DRY_RUN := Some "false";
     SEND_DAILY_SUMMARY := None |}.

Definition env_dry_run : Environ :=
  {| ALERT_THRESHOLD := None; CRITICAL_THRESHOLD := None; NTFY_TOPIC := None;
     ENABLE_AUTO_NUKE := Some "True"; NUKE_DRY_RUN := None;
     SEND_DAILY_SUMMARY := None |}.

Definition env_summary : Environ :=
  {| ALERT_THRESHOLD := None; CRITICAL_THRESHOLD := None; NTFY_TOPIC := None;
     ENABLE_AUTO_NUKE := None; NUKE_DRY_RUN := None;
     SEND_DAILY_SUMMARY := Some "true" |}.

(** Replace the two variables of the safety gate. *)
Definition set_gate (env : Environ) (enable dry : option string) : Environ :=
  {| ALERT_THRESHOLD := ALERT_THRESHOLD env;
     CRITICAL_THRESHOLD := CRITICAL_THRESHOLD env;
     NTFY_TOPIC := NTFY_TOPIC env;
     ENABLE_AUTO_NUKE := enable;
     NUKE_DRY_RUN := dry;
     SEND_DAILY_SUMMARY := SEND_DAILY_SUMMARY env |}.

(* ================================================================== *)
(** ** Reading traces, continued *)

(** Every call the program can make, whatever it is answered, satisfies
    [P]. *)
Fixpoint every (P : forall R : Set, Call R -> Prop) {A : Type} (p : Prog A) : Prop :=
  match p with
  | Ret _ => True
  | Vis c k => P _ c /\ forall r, every P (k r)
  end.

Definition event_call (P : forall R : Set, Call R -> Prop) (e : Event) : Prop :=
  match e with
  | Ev c _ => P _ c
  end.

(** A notification goes to the configured topic, with one of the three
    priorities and at least one tag. *)
Definition addressed (env : Environ) (R : Set) (c : Call R) : Prop :=
  match c with
  | SendNtfyAlert topic _ _ priority tags =>
      topic = ntfy_topic env /\
      In priority ["low"; "high"; "urgent"] /\
      tags <> []
  | _ => True
  end.

(** The resource category a cleanup call belongs to. *)
Inductive Category : Set := Compute | Gateway | Database.

Definition category {R : Set} (c : Call R) : option Category :=
  match c with
  | DescribeInstances _ | StopInstances _ => Some Compute
  | DescribeNatGateways _ | DeleteNatGateway _ => Some Gateway
  | DescribeDbInstances | StopDbInstance _ => Some Database
  | _ => None
  end.

Definition event_category (e : Event) : option Category :=
  match e with
  | Ev c _ => category c
  end.

(** The answers to the instance listings of a trace. *)
Definition instance_listing (e : Event) : list (Result (list Reservation)) :=
  match e with
  | Ev c r =>
      match c in Call R return R -> list (Result (list Reservation)) with
      | DescribeInstances _ => fun r => [r]
      | _ => fun _ => []
      end r
  end.

(** The [stop_instances] calls of a trace, each with its answer. *)
Definition instance_stop (e : Event) : list (list string * Result unit) :=
  match e with
  | Ev c r =>
      match c in Call R return R -> list (list string * Result unit) with
      | StopInstances ids => fun r => [(ids, r)]
      | _ => fun _ => []
      end r
  end.

(** The answers to the database listings of a trace. *)
Definition db_listing (e : Event) : list (Result (list DBInstance)) :=
  match e with
  | Ev c r =>
      match c in Call R return R -> list (Result (list DBInstance)) with
      | DescribeDbInstances => fun r => [r]
      | _ => fun _ => []
      end r
  end.

(** The databases the cleanup tries to stop. *)
Definition available (db : DBInstance) : bool :=
  String.eqb (DBInstanceStatus db) "available".

(** What a listing of [list_active_resources] counts: nothing when it
    raised. *)
Definition answered_count {A : Set} (count : A -> nat) (r : Result A) : nat :=
  match r with
  | inr v => count v
  | inl _ => 0%nat
  end.

(** The line of a category in the inventory summary, if any. *)
Definition count_line (entry : string * nat) : list string :=
  if Nat.ltb 0 (snd entry) then [fst entry ++ ": " ++ str_nat (snd entry)]
  else [].

(** The continuation of every notification is the same whether the
    notification was delivered or not. *)
Fixpoint deaf {A : Type} (p : Prog A) : Prop :=
  match p with
  | Ret _ => True
  | Vis c k =>
      (forall r, deaf (k r)) /\
      match c in Call R return (R -> Prog A) -> Prop with
      | SendNtfyAlert _ _ _ _ _ => fun k => k true = k false
      | _ => fun _ => True
      end k
  end.

(** A trace with the delivery answers forgotten. *)
Definition erase_delivery (e : Event) : Event :=
  match e with
  | Ev c r =>
      match c in Call R return R -> Event with
      | SendNtfyAlert topic title message priority tags =>
          fun _ => Ev (SendNtfyAlert topic title message priority tags) true
      | c0 => fun r => Ev c0 r
      end r
  end.

(** An account whose cost query is refused. *)
Definition account_no_billing : Cloud :=
  let a := account 60 in
  {| costs := inl "AccessDeniedException"; forecast := forecast a;
     reservations := reservations a; databases := databases a;
     gateways := gateways a; functions := functions a; buckets := buckets a;
     stop_instances := stop_instances a;
     delete_nat_gateway := delete_nat_gateway a;
     stop_db_instance := stop_db_instance a;
     delivered := delivered a |}.

(** The account [a] where no notification gets through. *)
Definition undelivered (a : Cloud) : Cloud :=
  {| costs := costs a; forecast := forecast a;
     reservations := reservations a; databases := databases a;
     gateways := gateways a; functions := functions a; buckets := buckets a;
     stop_instances := stop_instances a;
     delete_nat_gateway := delete_nat_gateway a;
     stop_db_instance := stop_db_instance a;
     delivered := false |}.

(** An account where the instance listing is refused and one of the two
    databases is already stopped. *)
Definition account_partial : Cloud :=
  let a := account 60 in
  {| costs := costs a; forecast := forecast a;
     reservations := fun _ => inl "UnauthorizedOperation";
     databases :=
       inr [ {| DBInstanceIdentifier := "db-1"; DBInstanceStatus := "stopped" |};
             {| DBInstanceIdentifier := "db-2"; DBInstanceStatus := "available" |} ];
     gateways := gateways a; functions := functions a; buckets := buckets a;
     stop_instances := stop_instances a;
     delete_nat_gateway := delete_nat_gateway a;
     stop_db_instance := stop_db_instance a;
     delivered := delivered a |}.

(* ================================================================== *)
(** ** The time periods of the two cost queries *)

(** The calendar date of [datetime.utcnow()]; the time of day does not
    reach [strftime('%Y-%m-%d')]. *)
Record Date : Set := { year : Z; month : Z; day : Z }.

Definition is_leap (y : Z) : bool :=
  ((y mod 4 =? 0) && (negb (y mod 100 =? 0) || (y mod 400 =? 0)))%Z%bool.

Definition days_in_month (y m : Z) : Z :=
  if (m =? 2)%Z then (if is_leap y then 29 else 28)%Z
  else if ((m =? 4) || (m =? 6) || (m =? 9) || (m =? 11))%Z%bool then 30%Z
  else 31%Z.

(** The dates a [datetime] can hold: years 1 to 9999. *)
Definition valid_date (d : Date) : Prop :=
  (1 <= year d <= 9999 /\ 1 <= month d <= 12 /\
   1 <= day d <= days_in_month (year d) (month d))%Z.

(** [today + timedelta(days=1)]; [None] is the [OverflowError] past
    9999-12-31. *)
Definition tomorrow (today : Date) : option Date :=
  if (day today <? days_in_month (year today) (month today))%Z then
    Some {| year := year today; month := month today; day := day today + 1 |}
  else if (month today <? 12)%Z then
    Some {| year := year today; month := month today + 1; day := 1 |}
  else if (year today <? 9999)%Z then
    Some {| year := year today + 1; month := 1; day := 1 |}
  else None.

(** Dates in calendar order. *)
Definition date_lt (a b : Date) : Prop :=
  (year a < year b \/
   (year a = year b /\
    (month a < month b \/ (month a = month b /\ day a < day b))))%Z.

(** The [TimePeriod] of [get_current_month_costs]: from
    [today.replace(day=1)] to [today + timedelta(days=1)], as the dates
    that [strftime('%Y-%m-%d')] prints.  [None] is the exception raised
    before the query. *)
Definition cost_time_period (today : Date) : option (Date * Date) :=
  let start_of_month :=
    {| year := year today; month := month today; day := 1 |} in
  match tomorrow today with
  | Some end_date => Some (start_of_month, end_date)
  | None => None
  end.

(** The [TimePeriod] of [get_forecasted_month_end_cost]: from tomorrow
    to the first day of the next month.  [None] is the exception raised
    before the query: [OverflowError] of the addition, or [ValueError]
    of [replace(year=10000, ...)]. *)
Definition forecast_time_period (today : Date) : option (Date * Date) :=
  match tomorrow today with
  | None => None
  | Some start_date =>
      if (month today =? 12)%Z then
        if (year today + 1 <=? 9999)%Z then
          Some (start_date, {| year := year today + 1; month := 1; day := 1 |})
        else None
      else
        Some (start_date,
              {| year := year today; month := month today + 1; day := 1 |})
  end.

(* ================================================================== *)
(** ** [format_top_services] for any [top_n] *)

(** Where [l[:n]] stops on a list of [len] elements, for any int [n]:
    at [n] when it is not negative, and [-n] elements before the end
    (or at the start, when there are fewer) when it is. *)
Definition slice_stop (n : Z) (len : nat) : nat :=
  if (0 <=? n)%Z then Z.to_nat n else (len - Z.to_nat (- n))%nat.

(** [l[:n]] *)
Definition slice_to {A : Type} (n : Z) (l : list A) : list A :=
  firstn (slice_stop n (List.length l)) l.

(** [listed_services] with the [top_n] of the source, an int: a
    negative [top_n] makes the slice drop entries from the end. *)
Definition listed_services_int (service_breakdown : Breakdown) (top_n : Z)
  : list (string * Q) :=
  let sorted_services := slice_to top_n (sorted_desc service_breakdown) in
  filter (fun x => gt_float (snd x) cutoff) sorted_services.

(** [format_top_services(service_breakdown, top_n)] for any int
    [top_n]. *)
Definition format_top_services_int (service_breakdown : Breakdown) (top_n : Z)
  : string :=
  match map service_line (listed_services_int service_breakdown top_n) with
  | [] => "  (No significant costs yet)"
  | lines => join nl lines
  end.

(* ================================================================== *)
(** ** Exceptions that nothing catches *)

(** An exception that no [except] clause of the module catches: for a
    boto3 call anything but [ClientError] (a [BotoCoreError] such as
    [EndpointConnectionError], a [KeyError] on the answer), for
    [send_ntfy_alert] anything but [URLError].  It leaves every [try]
    block of the module and the handler itself. *)
Definition Uncaught : Set := string.

(** A handler whose calls may also raise such an exception. *)
Definition Faulty (W : Type) : Type :=
  forall R : Set, Call R -> W -> (Uncaught + R) * W.

(** How a run ends: with a value, or with the exception of a call. *)
Inductive Ending (A : Type) : Type :=
| Returns (a : A)
| Raises (R : Set) (c : Call R) (x : Uncaught).

Arguments Returns {A} a.
Arguments Raises {A R} c x.

(** The run of a program against such a handler: the way it ends and
    the calls that were answered before. *)
Fixpoint run_faulty {A W : Type} (h : Faulty W) (p : Prog A) (w : W)
  : Ending A * list Event :=
  match p with
  | Ret a => (Returns a, [])
  | Vis c k =>
      match h _ c w with
      | (inl x, _) => (Raises c x, [])
      | (inr r, w1) =>
          let (ending, t) := run_faulty h (k r) w1 in
          (ending, Ev c r :: t)
      end
  end.

(** A handler that raises nothing of the kind. *)
Definition faultless {W : Type} (h : Handler W) : Faulty W :=
  fun R c w => let (r, w1) := h R c w in (inr r, w1).

(** The account [a] where the connection drops while gateway [bad] is
    being deleted. *)
Definition connection_lost (a : Cloud) (bad : string) : Faulty unit :=
  fun R c w =>
    match c in Call R return (Uncaught + R) * unit with
    | DeleteNatGateway id =>
        if String.eqb id bad then (inl "EndpointConnectionError", w)
        else (inr (delete_nat_gateway a id), w)
    | c0 => let (r, w1) := scripted a _ c0 w in (inr r, w1)
    end.

(** The events of the gateway deletions and of the database stops. *)
Definition delete_event (d : string * Result unit) : Event :=
  Ev (DeleteNatGateway (fst d)) (snd d).

Definition stop_event (d : string * Result unit) : Event :=
  Ev (StopDbInstance (fst d)) (snd d).

(** A gateway deletion that succeeded. *)
Definition deleted (g : NatGateway) : string * Result unit :=
  (NatGatewayId g, inr tt).

(** The delivery results of the notifications of a trace. *)
Definition delivery (e : Event) : list bool :=
  match e with
  | Ev c r =>
      match c in Call R return R -> list bool with
      | SendNtfyAlert _ _ _ _ _ => fun ok => [ok]
      | _ => fun _ => []
      end r
  end.

(** An account over the alert threshold only, where no notification
    gets through. *)
Definition account_undelivered_alert : Cloud := undelivered (account 25).

(** The programs are unfolded on demand only. *)
Arguments list_active_resources : simpl never.
Arguments trigger_nuke_warning : simpl never.
Arguments execute_resource_nuke : simpl never.
Arguments nuke : simpl never.
Arguments stop_ec2 : simpl never.
Arguments delete_nat_gateways : simpl never.
Arguments stop_rds : simpl never.
Arguments format_top_services : simpl never.
Arguments str_nat : simpl never.
Arguments String.append : simpl never.

(* ================================================================== *)
(** ** Running programs *)

Section RunFacts.
Context {W : Type} (h : Handler W).

Lemma run_bind {A B : Type} (m : Prog A) (f : A -> Prog B) (w : W) :
  run h (bind m f) w =
  {| value := value (run h (f (value (run h m w))) (world (run h m w)));
     trace := (trace (run h m w)
               ++ trace (run h (f (value (run h m w))) (world (run h m w))))%list;
     world := world (run h (f (value (run h m w))) (world (run h m w))) |}.
Proof.
  revert w; induction m as [a | R c k IH]; intro w; simpl.
  - now destruct (run h (f a) w).
  - destruct (h R c w) as [r w1]; simpl.
    now rewrite IH.
Qed.

Lemma run_call {R : Set} (c : Call R) (w : W) :
  run h (call c) w =
  {| value := fst (h R c w); trace := [Ev c (fst (h R c w))];
     world := snd (h R c w) |}.
Proof.
  unfold call; simpl. now destruct (h R c w).
Qed.

(** A program that can only make calls satisfying [P] leaves a trace
    of such calls. *)
Lemma only_trace (P : Kind -> Prop) {A : Type} (p : Prog A) :
  only P p -> forall w, Forall (fun e => P (event_kind e)) (trace (run h p w)).
Proof.
  induction p as [a | R c k IH]; simpl; intros Hp w.
  - constructor.
  - destruct Hp as [Hc Hk].
    destruct (h R c w) as [r w1]; simpl.
    constructor; [exact Hc | now apply IH].
Qed.
End RunFacts.

Lemma only_bind (P : Kind -> Prop) {A B : Type} (m : Prog A) (f : A -> Prog B) :
  only P m -> (forall a, only P (f a)) -> only P (bind m f).
Proof.
  induction m as [a | R c k IH]; simpl; intros Hm Hf.
  - apply Hf.
  - destruct Hm as [Hc Hk]. split; [exact Hc | intro r; now apply IH].
Qed.

Lemma only_weaken (P Q : Kind -> Prop) {A : Type} (p : Prog A) :
  (forall k, P k -> Q k) -> only P p -> only Q p.
Proof.
  intro HPQ. induction p as [a | R c k IH]; simpl; [trivial |].
  intros [Hc Hk]. split; [now apply HPQ | intro r; now apply IH].
Qed.

(* ================================================================== *)
(** ** The tiers *)

Lemma ge_float_true (a b : Q) : ge_float a b = true <-> (b <= a)%Q.
Proof. unfold ge_float. apply Qle_bool_iff. Qed.

Lemma ge_float_false (a b : Q) : ge_float a b = false <-> (a < b)%Q.
Proof.
  unfold ge_float. split; intro H.
  - apply Qnot_le_lt. intro Hle. apply Qle_bool_iff in Hle. congruence.
  - destruct (Qle_bool b a) eqn:E; [| reflexivity].
    apply Qle_bool_iff in E. exfalso. now apply (Qlt_not_le a b).
Qed.

(** C1.  The tier is a function of the total and the two thresholds
    alone: it is Critical exactly when the total is at least the
    critical threshold, Alert exactly when the total is below the
    critical threshold and at least the alert threshold, and Normal
    exactly when it is below both.  The bounds are inclusive and the
    critical test comes first: no relation between the two thresholds is
    assumed, so the statement covers an alert threshold above the
    critical one. *)
Theorem classify_tiers (total alertLevel criticalLevel : Q) :
  (classify total alertLevel criticalLevel = Critical
     <-> (criticalLevel <= total)%Q) /\
  (classify total alertLevel criticalLevel = Alert
     <-> (total < criticalLevel)%Q /\ (alertLevel <= total)%Q) /\
  (classify total alertLevel criticalLevel = Normal
     <-> (total < criticalLevel)%Q /\ (total < alertLevel)%Q).
Proof.
  unfold classify.
  destruct (ge_float total criticalLevel) eqn:Ec.
  - apply ge_float_true in Ec.
    repeat split; intros; try discriminate; try assumption;
      exfalso; apply (Qlt_not_le total criticalLevel); tauto.
  - apply ge_float_false in Ec.
    destruct (ge_float total alertLevel) eqn:Ea.
    + apply ge_float_true in Ea.
      repeat split; intros; try discriminate; try assumption; try tauto.
      * exfalso. now apply (Qlt_not_le total criticalLevel).
      * exfalso. apply (Qlt_not_le total alertLevel); tauto.
    + apply ge_float_false in Ea.
      repeat split; intros; try discriminate; try assumption; try tauto.
      * exfalso. now apply (Qlt_not_le total criticalLevel).
      * exfalso. apply (Qlt_not_le total alertLevel); tauto.
Qed.

(* ================================================================== *)
(** ** The top services *)

Lemma insert_desc_Forall (P : string * Q -> Prop) x l :
  P x -> Forall P l -> Forall P (insert_desc x l).
Proof.
  intros Hx Hl. induction Hl as [| y l' Hy Hl' IH]; simpl.
  - now constructor.
  - destruct (Qle_bool (snd y) (snd x)); repeat constructor; assumption.
Qed.

Lemma insert_desc_sorted x l :
  StronglySorted before l -> StronglySorted before (insert_desc x l).
Proof.
  intro Hs. induction Hs as [| y l' Hs IH Hy]; simpl.
  - repeat constructor.
  - destruct (Qle_bool (snd y) (snd x)) eqn:E.
    + apply Qle_bool_iff in E.
      constructor; [now constructor |].
      constructor; [exact E |].
      eapply Forall_impl; [| exact Hy].
      intros z Hz. unfold before in *. now apply Qle_trans with (snd y).
    + constructor; [exact IH |].
      apply insert_desc_Forall; [| exact Hy].
      unfold before. apply Qlt_le_weak, Qnot_le_lt.
      intro Hle. apply Qle_bool_iff in Hle. congruence.
Qed.

Lemma sorted_desc_sorted l : StronglySorted before (sorted_desc l).
Proof.
  induction l as [| x l IH]; simpl; [constructor | now apply insert_desc_sorted].
Qed.

Lemma insert_desc_perm x l : Permutation (x :: l) (insert_desc x l).
Proof.
  induction l as [| y l IH]; simpl; [reflexivity |].
  destruct (Qle_bool (snd y) (snd x)); [reflexivity |].
  rewrite perm_swap. now constructor.
Qed.

Lemma sorted_desc_perm l : Permutation l (sorted_desc l).
Proof.
  induction l as [| x l IH]; simpl; [constructor |].
  rewrite <- insert_desc_perm. now constructor.
Qed.

Lemma firstn_sorted {A : Type} (R : A -> A -> Prop) n (l : list A) :
  StronglySorted R l -> StronglySorted R (firstn n l).
Proof.
  intro Hs. revert n.
  induction Hs as [| x l Hs IH Hx]; intros [| n]; simpl; try constructor.
  - apply IH.
  - rewrite Forall_forall in *. intros y Hy. apply Hx.
    revert Hy. clear. revert n.
    induction l as [| z l IH]; intros [| n]; simpl; try tauto.
    intros [-> | Hy]; [now left | right; now apply (IH n)].
Qed.

Lemma filter_sorted {A : Type} (R : A -> A -> Prop) (f : A -> bool) (l : list A) :
  StronglySorted R l -> StronglySorted R (filter f l).
Proof.
  intro Hs. induction Hs as [| x l Hs IH Hx]; simpl; [constructor |].
  destruct (f x); [| exact IH].
  constructor; [exact IH |].
  rewrite Forall_forall in *. intros y Hy.
  apply filter_In in Hy. now apply Hx.
Qed.

Lemma gt_float_true (a b : Q) : gt_float a b = true <-> (b < a)%Q.
Proof.
  unfold gt_float. rewrite negb_true_iff. apply (ge_float_false b a).
Qed.

(** C8.  On the breakdown {A:40, B:35, C:0.001, D:20, E:10, F:5} the
    formatter lists A, B, D, E, F in that order, one line each, and
    leaves C out.  For every breakdown and every [top_n] the listed
    entries cost strictly more than the 0.01 cutoff, come in descending
    order of cost, are entries of the breakdown and number at most
    [top_n]. *)
Theorem top_services_listed :
  listed_services spec_breakdown 5
    = [("A", 40); ("B", 35); ("D", 20); ("E", 10); ("F", 5)]%Q /\
  format_top_services spec_breakdown
    = join nl ["  - A: $40.00"; "  - B: $35.00"; "  - D: $20.00";
               "  - E: $10.00"; "  - F: $5.00"] /\
  forall (breakdown : Breakdown) (top_n : nat),
    Forall (fun x => (cutoff < snd x)%Q) (listed_services breakdown top_n) /\
    StronglySorted before (listed_services breakdown top_n) /\
    incl (listed_services breakdown top_n) breakdown /\
    (List.length (listed_services breakdown top_n) <= top_n)%nat.
Proof.
  split; [reflexivity |]. split; [reflexivity |].
  intros breakdown top_n. unfold listed_services. repeat split.
  - rewrite Forall_forall. intros x Hx.
    apply filter_In in Hx. now apply gt_float_true.
  - apply filter_sorted, firstn_sorted, sorted_desc_sorted.
  - intros x Hx. apply filter_In in Hx. destruct Hx as [Hx _].
    apply (Permutation_in x (Permutation_sym (sorted_desc_perm breakdown))).
    revert Hx. generalize (sorted_desc breakdown). clear. intro l. revert top_n.
    induction l as [| z l IH]; intros [| n]; simpl; try tauto.
    intros [-> | Hy]; [now left | right; now apply (IH n)].
  - etransitivity; [apply filter_length_le | apply firstn_le_length].
Qed.

(* ================================================================== *)
(** ** The handler, branch by branch *)

Section HandlerRun.
Context {W : Type} (h : Handler W) (env : Environ).

(** The run of the handler, unfolded along the answers it gets. *)
Lemma lambda_handler_run (w : W) :
  let o := run h (lambda_handler env) w in
  let fetched := h _ GetCurrentMonthCosts w in
  match fst fetched with
  | inl e =>
      value o = inl e /\ trace o = [Ev GetCurrentMonthCosts (inl e)]
  | inr cost_info =>
      let forecasted := h _ GetForecastedMonthEndCost (snd fetched) in
      let w2 := snd forecasted in
      let cost := total_cost cost_info in
      let head := [Ev GetCurrentMonthCosts (inr cost_info);
                   Ev GetForecastedMonthEndCost (fst forecasted)] in
      let response sent triggered result :=
        {| statusCode := 200; current_cost := cost;
           alert_threshold := alert_level env;
     critical_threshold := critical_level env;
           forecasted_cost := fst forecasted; alert_sent := sent;
           nuke_triggered := triggered; nuke_result := result |} in
      match classify cost (alert_level env) (critical_level env) with
      | Critical =>
          let o1 := run h (trigger_nuke_warning env cost_info (critical_level env)) w2 in
          let o2 := run h (execute_resource_nuke env) (world o1) in
          value o = inr (response true true (Some (value o2))) /\
          trace o = (head ++ trace o1 ++ trace o2)%list
      | Alert =>
          let c := SendNtfyAlert (ntfy_topic env)
                     [Lit "AWS Cost Alert: $"; Flt cost]
                     (alert_message cost_info (alert_level env) (fst forecasted))
                     "high" ["warning"; "dollar"] in
          value o = inr (response true false None) /\
          trace o = (head ++ [Ev c (fst (h _ c w2))])%list
      | Normal =>
          let c := SendNtfyAlert (ntfy_topic env)
                     [Lit "AWS Cost Summary: $"; Flt cost]
                     (summary_message cost_info (alert_level env) (fst forecasted))
                     "low" ["chart_with_upwards_trend"; "white_check_mark"] in
          value o = inr (response false false None) /\
          trace o = (head ++ if flag (SEND_DAILY_SUMMARY env) "false"
                             then [Ev c (fst (h _ c w2))] else [])%list
      end
  end.
Proof.
  unfold lambda_handler. cbn.
  destruct (h _ GetCurrentMonthCosts w) as [[e | cost_info] w1]; cbn.
  - now split.
  - destruct (h _ GetForecastedMonthEndCost w1) as [f w2]; cbn.
    destruct (classify (total_cost cost_info) (alert_level env) (critical_level env)).
    + destruct (flag (SEND_DAILY_SUMMARY env) "false"); cbn.
      * match goal with |- context [h bool ?c w2] => destruct (h bool c w2) end.
        now split.
      * now split.
    + cbn.
      match goal with |- context [h bool ?c w2] => destruct (h bool c w2) end.
      now split.
    + rewrite !run_bind. cbn. rewrite app_nil_r. now split.
Qed.
End HandlerRun.

(* ================================================================== *)
(** ** What the listing and the warning do *)

Lemma list_active_resources_only : only (fun k => k = Inventory) list_active_resources.
Proof.
  unfold list_active_resources; simpl.
  repeat (split; [reflexivity | intro]). exact I.
Qed.

Lemma trigger_nuke_warning_run {W : Type} (h : Handler W) env cost_info critical w :
  let listing := run h list_active_resources w in
  let c := SendNtfyAlert (ntfy_topic env) warning_title
             (warning_message cost_info critical (value listing))
             "urgent" ["rotating_light"; "dollar"; "skull"] in
  trace (run h (trigger_nuke_warning env cost_info critical) w)
    = (trace listing ++ [Ev c (fst (h _ c (world listing)))])%list /\
  world (run h (trigger_nuke_warning env cost_info critical) w)
    = snd (h _ c (world listing)).
Proof.
  unfold trigger_nuke_warning. rewrite run_bind. cbn.
  match goal with |- context [h bool ?c ?w1] => destruct (h bool c w1) end.
  now split.
Qed.

(* ================================================================== *)
(** ** The safety gate *)

Lemma execute_resource_nuke_skip env :
  enable_nuke env = false ->
  execute_resource_nuke env =
    (call (SendNtfyAlert (ntfy_topic env) skipped_title skipped_message
             "high" ["hand"; "warning"]) ;;
     Ret (Skipped "auto_nuke_disabled")).
Proof. unfold execute_resource_nuke. now intros ->. Qed.

Lemma execute_resource_nuke_dry_run env :
  enable_nuke env = true -> dry_run env = true ->
  execute_resource_nuke env =
    (resources <- list_active_resources ;;
     call (SendNtfyAlert (ntfy_topic env) dry_run_title
             (dry_run_message resources) "high" ["test_tube"; "warning"]) ;;
     Ret (DryRun resources)).
Proof. unfold execute_resource_nuke. now intros -> ->. Qed.

Lemma execute_resource_nuke_execute env :
  enable_nuke env = true -> dry_run env = false ->
  execute_resource_nuke env = nuke env.
Proof. unfold execute_resource_nuke. now intros -> ->. Qed.

Lemma gate_closed_only env :
  enable_nuke env = false \/ dry_run env = true ->
  only (fun k => k = Inventory \/ k = Notification) (execute_resource_nuke env).
Proof.
  intro Hgate.
  destruct (enable_nuke env) eqn:Ee.
  - destruct Hgate as [Hgate | Hd]; [discriminate |].
    rewrite (execute_resource_nuke_dry_run env Ee Hd).
    apply only_bind.
    + apply only_weaken with (P := fun k => k = Inventory);
        [now left | apply list_active_resources_only].
    + intro resources. simpl. split; [now right | trivial].
  - rewrite (execute_resource_nuke_skip env Ee). simpl.
    split; [now right | trivial].
Qed.

Lemma handler_gate_closed_only env :
  enable_nuke env = false \/ dry_run env = true ->
  only (fun k => k <> Mutation) (lambda_handler env).
Proof.
  intro Hgate. unfold lambda_handler. cbn.
  split; [discriminate |]. intros [e | cost_info]; [exact I |]. cbn.
  split; [discriminate |]. intros f.
  destruct (classify _ _ _).
  - apply only_bind; [| intros; exact I].
    destruct (flag (SEND_DAILY_SUMMARY env) "false"); cbn; [| exact I].
    split; [discriminate | trivial].
  - cbn. split; [discriminate | trivial].
  - apply only_bind.
    + unfold trigger_nuke_warning. apply only_bind.
      * apply only_weaken with (P := fun k => k = Inventory);
          [intros k ->; discriminate | apply list_active_resources_only].
      * intro resources. cbn. split; [discriminate | trivial].
    + intros _. apply only_bind; [| intros; exact I].
      apply only_weaken with (P := fun k => k = Inventory \/ k = Notification);
        [intros k [-> | ->]; discriminate | now apply gate_closed_only].
Qed.

(** C2.  When the gate does not resolve to Execute (auto-action off, or
    dry run on), whatever the account answers: [execute_resource_nuke]
    makes only inventory listings and notifications, and the whole
    invocation makes no mutating call at all -- no instance stop, no
    gateway deletion, no database stop; what it makes besides listings
    and notifications are the two cost queries. *)
Theorem gate_closed_no_mutation (env : Environ) (W : Type) (h : Handler W) (w : W) :
  enable_nuke env = false \/ dry_run env = true ->
  Forall (fun e => event_kind e = Inventory \/ event_kind e = Notification)
    (trace (run h (execute_resource_nuke env) w)) /\
  Forall (fun e => event_kind e <> Mutation)
    (trace (run h (lambda_handler env) w)) /\
  count_kind Mutation (trace (run h (lambda_handler env) w)) = 0%nat.
Proof.
  intro Hgate.
  assert (Hno : Forall (fun e => event_kind e <> Mutation)
                  (trace (run h (lambda_handler env) w))).
  { apply (only_trace h (fun k => k <> Mutation)).
    now apply handler_gate_closed_only. }
  split; [| split; [exact Hno |]].
  - apply (only_trace h (fun k => k = Inventory \/ k = Notification)).
    now apply gate_closed_only.
  - unfold count_kind.
    induction Hno as [| e t He Ht IH]; [reflexivity |].
    simpl. unfold is_kind at 1.
    destruct (event_kind e); try exact IH. congruence.
Qed.

Lemma gate_closed_no_mutation_witness :
  Forall (fun e => event_kind e = Inventory \/ event_kind e = Notification)
    (trace (run (scripted (account 60)) (execute_resource_nuke env_dry_run) tt)) /\
  Forall (fun e => event_kind e <> Mutation)
    (trace (run (scripted (account 60)) (lambda_handler env_dry_run) tt)) /\
  count_kind Mutation
    (trace (run (scripted (account 60)) (lambda_handler env_dry_run) tt)) = 0%nat.
Proof.
  apply (gate_closed_no_mutation env_dry_run unit (scripted (account 60)) tt).
  right. reflexivity.
Defined.

(** C3.  The decision table of the gate, for every account.  With
    auto-action off -- whatever the dry-run variable says -- the result
    is "skipped" with reason "auto_nuke_disabled", and the one call made
    is the notification that says the nuke was skipped because auto-nuke
    is disabled.  With auto-action on and dry run on the result is
    "dry_run"; with auto-action on and dry run off it is "executed". *)
Theorem gate_decision_table (env : Environ) (W : Type) (h : Handler W) (w : W) :
  let o := run h (execute_resource_nuke env) w in
  (enable_nuke env = false ->
     value o = Skipped "auto_nuke_disabled" /\
     exists ok,
       trace o = [Ev (SendNtfyAlert (ntfy_topic env) skipped_title skipped_message
                        "high" ["hand"; "warning"]) ok]) /\
  (enable_nuke env = true -> dry_run env = true ->
     exists resources, value o = DryRun resources) /\
  (enable_nuke env = true -> dry_run env = false ->
     exists done failed, value o = Executed done failed).
Proof.
  cbv zeta. split; [| split].
  - intro He. rewrite (execute_resource_nuke_skip env He). cbn.
    match goal with |- context [h bool ?c w] => destruct (h bool c w) as [ok w1] end.
    cbn. split; [reflexivity | now exists ok].
  - intros He Hd. rewrite (execute_resource_nuke_dry_run env He Hd).
    rewrite run_bind. cbn.
    match goal with |- context [h bool ?c ?w1] => destruct (h bool c w1) end.
    cbn. eexists. reflexivity.
  - intros He Hd. rewrite (execute_resource_nuke_execute env He Hd).
    unfold nuke. rewrite !run_bind. cbn.
    do 2 eexists. reflexivity.
Qed.

Lemma gate_decision_table_witness :
  let o := run (scripted (account 60)) (execute_resource_nuke env_default) tt in
  value o = Skipped "auto_nuke_disabled" /\
  exists ok,
    trace o = [Ev (SendNtfyAlert (ntfy_topic env_default) skipped_title
                     skipped_message "high" ["hand"; "warning"]) ok].
Proof.
  apply (gate_decision_table env_default unit (scripted (account 60)) tt).
  reflexivity.
Defined.

(* ================================================================== *)
(** ** The critical branch *)

Lemma trigger_nuke_warning_set_gate env enable dry cost_info critical :
  trigger_nuke_warning (set_gate env enable dry) cost_info critical
  = trigger_nuke_warning env cost_info critical.
Proof. reflexivity. Qed.

(** C4.  On a run that reaches the Critical tier the trace starts with
    the two cost queries, goes on with inventory listings only, and then
    has the urgent warning notification; everything
    [execute_resource_nuke] does -- reading the gate, and any
    notification or cleanup call that follows from it -- comes after
    the warning.  The part of the trace up to and including the warning
    is the same for every setting of the two gate variables. *)
Theorem warning_precedes_gate (env : Environ) (W : Type) (h : Handler W) (w : W)
  (cost_info : CostInfo) :
  fst (h _ GetCurrentMonthCosts w) = inr cost_info ->
  classify (total_cost cost_info) (alert_level env) (critical_level env)
    = Critical ->
  exists (listing : list Event) (resources : list string) (forecasted : option Q)
         (ok : bool) (w3 : W),
    Forall (fun e => event_kind e = Inventory) listing /\
    forall enable dry : option string,
      trace (run h (lambda_handler (set_gate env enable dry)) w)
      = ([Ev GetCurrentMonthCosts (inr cost_info);
          Ev GetForecastedMonthEndCost forecasted]
         ++ listing
         ++ [Ev (SendNtfyAlert (ntfy_topic env) warning_title
                   (warning_message cost_info (critical_level env) resources)
                   "urgent" ["rotating_light"; "dollar"; "skull"]) ok]
         ++ trace (run h (execute_resource_nuke (set_gate env enable dry)) w3))%list.
Proof.
  intros Hfetch Htier.
  set (critical := critical_level env) in *.
  set (w2 := snd (h _ GetForecastedMonthEndCost (snd (h _ GetCurrentMonthCosts w)))).
  destruct (trigger_nuke_warning_run h env cost_info critical w2) as [Ht Hw].
  cbv zeta in Ht, Hw.
  set (listing := run h list_active_resources w2) in *.
  exists (trace listing), (value listing),
    (fst (h _ GetForecastedMonthEndCost (snd (h _ GetCurrentMonthCosts w)))).
  eexists. eexists.
  split.
  - apply (only_trace h (fun k => k = Inventory)), list_active_resources_only.
  - intros enable dry.
    pose proof (lambda_handler_run h (set_gate env enable dry) w) as Hrun.
    cbv zeta in Hrun. rewrite Hfetch in Hrun.
    change (alert_level (set_gate env enable dry)) with (alert_level env) in Hrun.
    change (critical_level (set_gate env enable dry)) with critical in Hrun.
    rewrite Htier in Hrun. destruct Hrun as [_ Hrun].
    rewrite Hrun, trigger_nuke_warning_set_gate.
    fold w2. rewrite Ht, Hw. rewrite <- !app_assoc. reflexivity.
Qed.

Lemma warning_precedes_gate_witness :
  exists (listing : list Event) (resources : list string) (forecasted : option Q)
         (ok : bool) (w3 : unit),
    Forall (fun e => event_kind e = Inventory) listing /\
    forall enable dry : option string,
      trace (run (scripted (account 60))
               (lambda_handler (set_gate env_default enable dry)) tt)
      = ([Ev GetCurrentMonthCosts (costs (account 60));
          Ev GetForecastedMonthEndCost forecasted]
         ++ listing
         ++ [Ev (SendNtfyAlert "aws-cost-alerts" warning_title
                   (warning_message
                      {| total_cost := 60;
                         service_breakdown := [("Amazon EC2", 60)];
                         currency := "USD";
                         period := "2024-05-01 to 2024-05-21" |}
                      50 resources)
                   "urgent" ["rotating_light"; "dollar"; "skull"]) ok]
         ++ trace (run (scripted (account 60))
                     (execute_resource_nuke (set_gate env_default enable dry)) w3))%list.
Proof.
  apply (warning_precedes_gate env_default unit (scripted (account 60)) tt
           {| total_cost := 60;
              service_breakdown := [("Amazon EC2", 60)];
              currency := "USD";
              period := "2024-05-01 to 2024-05-21" |}).
  - reflexivity.
  - reflexivity.
Defined.

(* ================================================================== *)
(** ** The returned report *)

Lemma count_kind_app k t1 t2 :
  count_kind k (t1 ++ t2) = (count_kind k t1 + count_kind k t2)%nat.
Proof. unfold count_kind. now rewrite filter_app, length_app. Qed.

Lemma count_kind_none (k : Kind) (P : Kind -> Prop) t :
  ~ P k -> Forall (fun e => P (event_kind e)) t -> count_kind k t = 0%nat.
Proof.
  intros Hk Ht. unfold count_kind.
  induction Ht as [| e t He Ht IH]; [reflexivity |].
  simpl. unfold is_kind at 1.
  destruct (event_kind e), k; try exact IH; contradiction.
Qed.

(** C10.  Whenever the handler returns a report, its [statusCode] is
    200: whatever the tier, the gate, the delivery of the notifications
    and the outcome of the cleanup calls. *)
Theorem status_code_200 (env : Environ) (W : Type) (h : Handler W) (w : W)
  (report : Report) :
  value (run h (lambda_handler env) w) = inr report ->
  statusCode report = 200%Z.
Proof.
  intro Hret.
  pose proof (lambda_handler_run h env w) as Hrun. cbv zeta in Hrun.
  destruct (fst (h _ GetCurrentMonthCosts w)) as [e | cost_info].
  - destruct Hrun as [Hv _]. congruence.
  - destruct (classify _ _ _); destruct Hrun as [Hv _];
      rewrite Hv in Hret; injection Hret as <-; reflexivity.
Qed.

Lemma status_code_200_witness :
  let report :=
    {| statusCode := 200; current_cost := 60; alert_threshold := 10;
       critical_threshold := 50; forecasted_cost := Some (60 + 10)%Q;
       alert_sent := true; nuke_triggered := true;
       nuke_result :=
         Some (Executed
                 ["Stopped 2 EC2 instances"; "Deleted NAT Gateway: nat-1";
                  "Stopped RDS: db-1"; "Stopped RDS: db-2"]
                 ["NAT Gateway: DependencyViolation"]) |} in
  value (run (scripted (account_gateway_failure 60)) (lambda_handler env_execute) tt)
    = inr report /\
  statusCode report = 200%Z.
Proof.
  split; [reflexivity |].
  apply (status_code_200 env_execute unit
           (scripted (account_gateway_failure 60)) tt).
  reflexivity.
Defined.

Lemma execute_resource_nuke_status {W : Type} (h : Handler W) env w :
  status (value (run h (execute_resource_nuke env) w))
  = if negb (enable_nuke env) then "skipped"
    else if dry_run env then "dry_run" else "executed".
Proof.
  destruct (enable_nuke env) eqn:Ee; [destruct (dry_run env) eqn:Ed |]; cbn [negb].
  - rewrite (execute_resource_nuke_dry_run env Ee Ed).
    rewrite run_bind, run_bind. reflexivity.
  - rewrite (execute_resource_nuke_execute env Ee Ed).
    unfold nuke. rewrite !run_bind. reflexivity.
  - rewrite (execute_resource_nuke_skip env Ee).
    rewrite run_bind. reflexivity.
Qed.

(** C5, as the code has it.  Whenever the handler returns, the report
    carries the total answered by the cost source and the two
    thresholds of the environment, hence the tier.  [alert_sent] is true
    exactly in the Alert and Critical tiers, where at least one
    notification call was made (delivered or not); in the Normal tier it
    is false, and the daily summary is sent there exactly when its flag
    is set.  [nuke_triggered] is true exactly in the Critical tier,
    whatever the gate decided, and there [nuke_result] is the value
    [execute_resource_nuke] returned at the end of that run; in the
    other tiers there is no [nuke_result].  Whether the cleanup ran is
    told by the status of [nuke_result]: it is "executed" exactly when
    the gate was open, and a run makes a mutating call only if its
    report has that status. *)
Theorem report_reflects_run (env : Environ) (W : Type) (h : Handler W) (w : W)
  (report : Report) :
  let o := run h (lambda_handler env) w in
  value o = inr report ->
  let tier := classify (current_cost report) (alert_threshold report)
                (critical_threshold report) in
  (exists cost_info,
     fst (h _ GetCurrentMonthCosts w) = inr cost_info /\
     current_cost report = total_cost cost_info) /\
  alert_threshold report = alert_level env /\
  critical_threshold report = critical_level env /\
  (alert_sent report = true <-> tier <> Normal) /\
  (tier <> Normal -> (1 <= count_kind Notification (trace o))%nat) /\
  (tier = Normal ->
     count_kind Notification (trace o)
     = if flag (SEND_DAILY_SUMMARY env) "false" then 1%nat else 0%nat) /\
  (nuke_triggered report = true <-> tier = Critical) /\
  (tier = Critical ->
     exists (earlier : list Event) (w3 : W),
       trace o = (earlier ++ trace (run h (execute_resource_nuke env) w3))%list /\
       nuke_result report = Some (value (run h (execute_resource_nuke env) w3))) /\
  (tier <> Critical -> nuke_result report = None) /\
  (forall result, nuke_result report = Some result ->
     (status result = "executed"
      <-> enable_nuke env = true /\ dry_run env = false)) /\
  (count_kind Mutation (trace o) <> 0%nat ->
     exists result,
       nuke_result report = Some result /\ status result = "executed").
Proof.
  cbv zeta. intro Hret.
  assert (Hstatus : forall w3,
             status (value (run h (execute_resource_nuke env) w3)) = "executed"
             <-> enable_nuke env = true /\ dry_run env = false).
  { intro w3. rewrite execute_resource_nuke_status.
    destruct (enable_nuke env), (dry_run env); cbn [negb];
      split; try discriminate; try tauto; intros [? ?]; discriminate. }
  assert (Hclosed : ~ (enable_nuke env = true /\ dry_run env = false) ->
             count_kind Mutation (trace (run h (lambda_handler env) w)) = 0%nat).
  { intro Hgate.
    apply (count_kind_none Mutation (fun k => k <> Mutation));
      [intro H; now apply H |].
    apply (only_trace h (fun k => k <> Mutation)), handler_gate_closed_only.
    destruct (enable_nuke env); [| now left].
    destruct (dry_run env); [now right |]. exfalso. now apply Hgate. }
  pose proof (lambda_handler_run h env w) as Hrun. cbv zeta in Hrun.
  destruct (fst (h _ GetCurrentMonthCosts w)) as [e | cost_info].
  { destruct Hrun as [Hv _]. congruence. }
  destruct (classify (total_cost cost_info) _ _) eqn:Htier;
    destruct Hrun as [Hv Ht]; rewrite Hv in Hret; injection Hret as <-;
    cbn [current_cost alert_threshold critical_threshold alert_sent
         nuke_triggered nuke_result];
    rewrite Htier;
    (split; [now exists cost_info |]); (split; [reflexivity |]);
    (split; [reflexivity |]).
  - (* Normal *)
    rewrite Ht.
    repeat split; try congruence.
    + destruct (flag (SEND_DAILY_SUMMARY env) "false"); reflexivity.
    + intro Hm. exfalso. apply Hm.
      destruct (flag (SEND_DAILY_SUMMARY env) "false"); reflexivity.
  - (* Alert *)
    rewrite Ht.
    repeat split; try congruence.
    + cbn. unfold count_kind. cbn. lia.
    + intro Hm. exfalso. now apply Hm.
  - (* Critical *)
    destruct (trigger_nuke_warning_run h env cost_info (critical_level env)
                (snd (h _ GetForecastedMonthEndCost
                        (snd (h _ GetCurrentMonthCosts w))))) as [Hw _].
    cbv zeta in Hw.
    split; [split; congruence |].
    split.
    { intros _. rewrite Ht, Hw, !count_kind_app.
      unfold count_kind at 3. cbn. lia. }
    split; [congruence |].
    split; [split; congruence |].
    split.
    { intros _. eexists. eexists. split; [| reflexivity].
      rewrite Ht, app_assoc. reflexivity. }
    split; [congruence |].
    split.
    { intros result Hres. injection Hres as <-. apply Hstatus. }
    intro Hm. eexists. split; [reflexivity |].
    apply Hstatus.
    destruct (enable_nuke env) eqn:Ee; [destruct (dry_run env) eqn:Ed |];
      try (now split); exfalso; apply Hm, Hclosed; intros [? ?]; discriminate.
Qed.

Lemma report_reflects_run_witness :
  let o := run (scripted (account 5)) (lambda_handler env_summary) tt in
  let report :=
    {| statusCode := 200; current_cost := 5; alert_threshold := 10;
       critical_threshold := 50; forecasted_cost := Some (5 + 10)%Q;
       alert_sent := false; nuke_triggered := false; nuke_result := None |} in
  value o = inr report /\
  (alert_sent report = true
     <-> classify (current_cost report) (alert_threshold report)
           (critical_threshold report) <> Normal) /\
  (classify (current_cost report) (alert_threshold report)
     (critical_threshold report) = Normal ->
   count_kind Notification (trace o)
   = if flag (SEND_DAILY_SUMMARY env_summary) "false" then 1%nat else 0%nat).
Proof.
  cbv zeta. split; [reflexivity |].
  pose proof (report_reflects_run env_summary unit (scripted (account 5)) tt _
                eq_refl) as H.
  cbv zeta in H. split; apply H.
Defined.

(** C5 as stated fails in three runs.  A Normal run with the daily
    summary on (total 5 against 10 and 50): one notification is sent and
    the report says [alert_sent = false].  An Alert run in which the
    notification is not delivered (total 25): nothing went out and the
    report says [alert_sent = true].  A Critical run with the gate at
    its defaults (total 60): the nuke is skipped, no mutating call is
    made, and the report says [nuke_triggered = true]. *)
Lemma report_flags_against_claim :
  (let o := run (scripted (account 5)) (lambda_handler env_summary) tt in
   exists report,
     value o = inr report /\
     count_kind Notification (trace o) = 1%nat /\
     alert_sent report = false) /\
  (let o := run (scripted account_undelivered_alert) (lambda_handler env_default) tt in
   exists report,
     value o = inr report /\
     flat_map delivery (trace o) = [false] /\
     alert_sent report = true) /\
  (let o := run (scripted (account 60)) (lambda_handler env_default) tt in
   exists report,
     value o = inr report /\
     nuke_result report = Some (Skipped "auto_nuke_disabled") /\
     count_kind Mutation (trace o) = 0%nat /\
     nuke_triggered report = true).
Proof.
  cbv zeta. repeat split; eexists; repeat split; reflexivity.
Qed.

(* ================================================================== *)
(** ** The cleanup, category by category *)

(** What a block of the cleanup leaves behind: its calls after the
    listing are mutations, and the two lists grow by the entries of the
    calls it made. *)
Section Cleanup.
Context {W : Type} (h : Handler W).

Lemma stop_ec2_run (log : Log) (w : W) :
  let o := run h (stop_ec2 log) w in
  exists r t,
    trace o = Ev (DescribeInstances ["running"]) r :: t /\
    Forall (fun e => event_kind e = Mutation) t /\
    logged log o /\
    deletions (trace o) = [] /\
    flat_map gateway_listing (trace o) = [].
Proof.
  unfold logged, stop_ec2. cbn.
  destruct (h _ (DescribeInstances ["running"]) w) as [[e | reservations] w1]; cbn.
  - exists (inl e), []. rewrite app_nil_r. repeat split; constructor.
  - destruct (instance_ids reservations) as [| i ids] eqn:Eids; cbn.
    + exists (inr reservations), []. rewrite !app_nil_r. repeat split; constructor.
    + destruct (h _ (StopInstances (i :: ids)) w1) as [[e | u] w2]; cbn.
      * eexists (inr reservations), [_]. rewrite app_nil_r.
        repeat split; repeat constructor.
      * eexists (inr reservations), [_]. rewrite app_nil_r.
        repeat split; repeat constructor.
Qed.

Lemma delete_each_run (nats : list NatGateway) (log : Log) (w : W) :
  let o := run h (delete_each nats log) w in
  let entries := flat_map succeeded_entry (trace o) in
  Forall (fun e => event_kind e = Mutation) (trace o) /\
  terminated (fst (value o)) = (terminated log ++ entries)%list /\
  errors (fst (value o)) = errors log /\
  flat_map gateway_listing (trace o) = [] /\
  match snd (value o) with
  | None =>
      flat_map failed_entry (trace o) = [] /\
      deletions (trace o) = map (fun g => (NatGatewayId g, inr tt)) nats
  | Some err =>
      flat_map failed_entry (trace o) = ["NAT Gateway: " ++ err] /\
      exists pre g post,
        nats = (pre ++ g :: post)%list /\
        deletions (trace o)
        = (map (fun x => (NatGatewayId x, inr tt)) pre
           ++ [(NatGatewayId g, inl err)])%list /\
        entries = map (fun x => "Deleted NAT Gateway: " ++ NatGatewayId x) pre
  end.
Proof.
  revert log w. induction nats as [| g rest IH]; intros log w; cbn.
  - rewrite app_nil_r. repeat split; constructor.
  - destruct (h _ (DeleteNatGateway (NatGatewayId g)) w) as [[e | []] w1]; cbn.
    + rewrite app_nil_r. repeat split; try (repeat constructor).
      exists [], g, rest. repeat split.
    + specialize (IH (add_terminated log
                        ("Deleted NAT Gateway: " ++ NatGatewayId g)) w1).
      cbv zeta in IH. destruct IH as (Hm & Ht & He & Hl & Hs).
      split; [constructor; [reflexivity | exact Hm] |].
      split; [rewrite Ht; cbn; now rewrite <- app_assoc |].
      split; [exact He |]. split; [exact Hl |].
      destruct (snd (value (run h (delete_each rest _) w1))) as [err |].
      * destruct Hs as (Hf & pre & g' & post & -> & Hd & Hen).
        split; [exact Hf |].
        exists (g :: pre), g', post. unfold deletions in *. cbn.
        rewrite Hd, Hen. repeat split.
      * destruct Hs as (Hf & Hd). unfold deletions in *. cbn.
        rewrite Hd. now split.
Qed.

Lemma delete_nat_gateways_run (log : Log) (w : W) :
  let o := run h (delete_nat_gateways log) w in
  exists r t,
    trace o = Ev (DescribeNatGateways ["available"]) r :: t /\
    Forall (fun e => event_kind e = Mutation) t /\
    logged log o /\
    flat_map gateway_listing (trace o) = [r] /\
    match r with
    | inl _ => deletions (trace o) = []
    | inr nats =>
        deletions (trace o) = map (fun g => (NatGatewayId g, inr tt)) nats \/
        exists pre g post err,
          nats = (pre ++ g :: post)%list /\
          deletions (trace o)
          = (map (fun x => (NatGatewayId x, inr tt)) pre
             ++ [(NatGatewayId g, inl err)])%list /\
          flat_map succeeded_entry (trace o)
          = map (fun x => "Deleted NAT Gateway: " ++ NatGatewayId x) pre /\
          flat_map failed_entry (trace o) = ["NAT Gateway: " ++ err]
    end.
Proof.
  unfold logged, delete_nat_gateways. cbn.
  destruct (h _ (DescribeNatGateways ["available"]) w) as [[e | nats] w1]; cbn.
  - exists (inl e), []. rewrite app_nil_r. repeat split; constructor.
  - rewrite run_bind. cbn.
    pose proof (delete_each_run nats log w1) as Hrun. cbv zeta in Hrun.
    destruct Hrun as (Hm & Ht & He & Hl & Hs).
    destruct (value (run h (delete_each nats log) w1)) as [log1 [err |]];
      cbn in *; exists (inr nats); eexists; rewrite app_nil_r;
      (split; [reflexivity |]); (split; [exact Hm |]).
    + destruct Hs as (Hf & pre & g & post & Hn & Hd & Hen).
      rewrite Hf, Ht, He, Hl. repeat split.
      right. exists pre, g, post, err. repeat split; assumption.
    + destruct Hs as (Hf & Hd).
      rewrite Hf, Ht, He, Hl, app_nil_r. repeat split. now left.
Qed.

Lemma stop_each_run (dbs : list DBInstance) (log : Log) (w : W) :
  let o := run h (stop_each dbs log) w in
  Forall (fun e => event_kind e = Mutation) (trace o) /\
  terminated (value o)
    = (terminated log ++ flat_map succeeded_entry (trace o))%list /\
  errors (value o) = errors log /\
  flat_map failed_entry (trace o) = [] /\
  deletions (trace o) = [] /\
  flat_map gateway_listing (trace o) = [].
Proof.
  revert log w. induction dbs as [| db rest IH]; intros log w; cbn.
  - rewrite app_nil_r. repeat split; constructor.
  - destruct (String.eqb (DBInstanceStatus db) "available"); [| apply IH].
    cbn.
    destruct (h _ (StopDbInstance (DBInstanceIdentifier db)) w) as [[e | u] w1];
      cbn.
    + destruct (IH log w1) as (Hm & Ht & He & Hf & Hd & Hl).
      repeat split; try assumption. now constructor.
    + destruct (IH (add_terminated log
                      ("Stopped RDS: " ++ DBInstanceIdentifier db)) w1)
        as (Hm & Ht & He & Hf & Hd & Hl).
      repeat split; try assumption; [now constructor |].
      rewrite Ht. cbn. now rewrite <- app_assoc.
Qed.

Lemma stop_rds_run (log : Log) (w : W) :
  let o := run h (stop_rds log) w in
  exists r t,
    trace o = Ev DescribeDbInstances r :: t /\
    Forall (fun e => event_kind e = Mutation) t /\
    logged log o /\
    deletions (trace o) = [] /\
    flat_map gateway_listing (trace o) = [].
Proof.
  unfold logged, stop_rds. cbn.
  destruct (h _ DescribeDbInstances w) as [[e | dbs] w1]; cbn.
  - exists (inl e), []. rewrite app_nil_r. repeat split; constructor.
  - destruct (stop_each_run dbs log w1) as (Hm & Ht & He & Hf & Hd & Hl).
    exists (inr dbs). eexists. split; [reflexivity |].
    rewrite Ht, He, Hf, app_nil_r. repeat split; assumption.
Qed.
End Cleanup.

(** The whole cleanup: three blocks, each opened by its listing, then
    one completion notification carrying the two lists. *)
Lemma nuke_run {W : Type} (h : Handler W) (env : Environ) (w : W) :
  let o := run h (nuke env) w in
  let done := flat_map succeeded_entry (trace o) in
  let failed := flat_map failed_entry (trace o) in
  exists r1 t1 r2 t2 r3 t3 ok,
    trace o
    = ((Ev (DescribeInstances ["running"]) r1 :: t1)
       ++ (Ev (DescribeNatGateways ["available"]) r2 :: t2)
       ++ (Ev DescribeDbInstances r3 :: t3)
       ++ [Ev (SendNtfyAlert (ntfy_topic env) complete_title
                 (complete_message done failed) "urgent" ["skull"; "check"]) ok])%list /\
    value o = Executed done failed /\
    Forall (fun e => event_kind e = Mutation) t1 /\
    Forall (fun e => event_kind e = Mutation) t2 /\
    Forall (fun e => event_kind e = Mutation) t3 /\
    flat_map gateway_listing (trace o) = [r2] /\
    deletions (trace o) = deletions (Ev (DescribeNatGateways ["available"]) r2 :: t2) /\
    incl (flat_map succeeded_entry (Ev (DescribeNatGateways ["available"]) r2 :: t2)) done /\
    incl (flat_map failed_entry (Ev (DescribeNatGateways ["available"]) r2 :: t2)) failed /\
    match r2 with
    | inl _ => deletions (Ev (DescribeNatGateways ["available"]) r2 :: t2) = []
    | inr nats =>
        deletions (Ev (DescribeNatGateways ["available"]) r2 :: t2)
        = map (fun g => (NatGatewayId g, inr tt)) nats \/
        exists pre g post err,
          nats = (pre ++ g :: post)%list /\
          deletions (Ev (DescribeNatGateways ["available"]) r2 :: t2)
          = (map (fun x => (NatGatewayId x, inr tt)) pre
             ++ [(NatGatewayId g, inl err)])%list /\
          flat_map succeeded_entry (Ev (DescribeNatGateways ["available"]) r2 :: t2)
          = map (fun x => "Deleted NAT Gateway: " ++ NatGatewayId x) pre /\
          flat_map failed_entry (Ev (DescribeNatGateways ["available"]) r2 :: t2)
          = ["NAT Gateway: " ++ err]
    end.
Proof.
  cbv zeta. unfold nuke. rewrite !run_bind, run_call. cbn [value trace world].
  set (log0 := {| terminated := []; errors := [] |}).
  set (o1 := run h (stop_ec2 log0) w).
  set (o2 := run h (delete_nat_gateways (value o1)) (world o1)).
  set (o3 := run h (stop_rds (value o2)) (world o2)).
  destruct (stop_ec2_run h log0 w) as (r1 & t1 & T1 & M1 & [D1 F1] & X1 & L1).
  destruct (delete_nat_gateways_run h (value o1) (world o1))
    as (r2 & t2 & T2 & M2 & [D2 F2] & L2 & G2).
  destruct (stop_rds_run h (value o2) (world o2))
    as (r3 & t3 & T3 & M3 & [D3 F3] & X3 & L3).
  fold o1 in T1, D1, F1, X1, L1. fold o2 in T2, D2, F2, L2, G2.
  fold o3 in T3, D3, F3, X3, L3.
  assert (Hdone : terminated (value o3)
                  = flat_map succeeded_entry
                      (trace o1 ++ trace o2 ++ trace o3 ++
                       [Ev (SendNtfyAlert (ntfy_topic env) complete_title
                              (complete_message (terminated (value o3))
                                 (errors (value o3))) "urgent" ["skull"; "check"])
                           (fst (h _ (SendNtfyAlert (ntfy_topic env) complete_title
                                        (complete_message (terminated (value o3))
                                           (errors (value o3))) "urgent"
                                        ["skull"; "check"]) (world o3)))])%list).
  { rewrite !flat_map_app, D3, D2, D1. cbn. now rewrite app_nil_r, <- !app_assoc. }
  assert (Hfailed : errors (value o3)
                  = flat_map failed_entry
                      (trace o1 ++ trace o2 ++ trace o3 ++
                       [Ev (SendNtfyAlert (ntfy_topic env) complete_title
                              (complete_message (terminated (value o3))
                                 (errors (value o3))) "urgent" ["skull"; "check"])
                           (fst (h _ (SendNtfyAlert (ntfy_topic env) complete_title
                                        (complete_message (terminated (value o3))
                                           (errors (value o3))) "urgent"
                                        ["skull"; "check"]) (world o3)))])%list).
  { rewrite !flat_map_app, F3, F2, F1. cbn. now rewrite app_nil_r, <- !app_assoc. }
  rewrite app_nil_r. rewrite <- Hdone, <- Hfailed.
  exists r1, t1, r2, t2, r3, t3. eexists.
  rewrite <- T1, <- T2, <- T3.
  split; [reflexivity |]. split; [reflexivity |].
  split; [exact M1 |]. split; [exact M2 |]. split; [exact M3 |].
  split; [| split; [| split; [| split]]]; [| | | | exact G2].
  - rewrite !flat_map_app, L1, L2, L3. reflexivity.
  - unfold deletions in *. rewrite !flat_map_app, X1, X3. cbn.
    now rewrite app_nil_r.
  - rewrite D3, D2. intros x Hx. apply in_or_app. left. apply in_or_app. now right.
  - rewrite F3, F2. intros x Hx. apply in_or_app. left. apply in_or_app. now right.
Qed.

(* ================================================================== *)
(** ** The cleanup as a whole *)

Lemma count_kind_block (k : Kind) {R : Set} (c : Call R) (r : R) (t : list Event) :
  kind c = Inventory ->
  Forall (fun e => event_kind e = Mutation) t ->
  count_kind Notification (Ev c r :: t) = 0%nat.
Proof.
  intros Hc Ht.
  apply (count_kind_none Notification (fun k => k = Inventory \/ k = Mutation)).
  - intros [H | H]; discriminate.
  - constructor; [now left |].
    eapply Forall_impl; [| exact Ht]. intros e He. now right.
Qed.






(* ================================================================== *)
(** ** More on the top services *)

Lemma Qeq_bool_lt_false (a b c : Q) :
  (a < b)%Q -> Qeq_bool a c = true -> Qeq_bool b c = false.
Proof.
  intros Hlt Ha. apply Qeq_bool_iff in Ha.
  destruct (Qeq_bool b c) eqn:Hb; [| reflexivity].
  apply Qeq_bool_iff in Hb. exfalso.
  apply (Qlt_irrefl c). rewrite <- Ha at 1. now rewrite <- Hb.
Qed.

Lemma insert_desc_filter_eq (c : Q) x l :
  filter (fun y => Qeq_bool (snd y) c) (insert_desc x l)
  = filter (fun y => Qeq_bool (snd y) c) (x :: l).
Proof.
  induction l as [| y l IH]; [reflexivity |].
  cbn [insert_desc]. destruct (Qle_bool (snd y) (snd x)) eqn:E; [reflexivity |].
  assert (Hlt : (snd x < snd y)%Q).
  { apply Qnot_le_lt. intro Hle. apply Qle_bool_iff in Hle. congruence. }
  cbn [filter] in *. rewrite IH.
  destruct (Qeq_bool (snd x) c) eqn:Ex; [| reflexivity].
  now rewrite (Qeq_bool_lt_false _ _ _ Hlt Ex).
Qed.

(** X1.  [sorted(..., reverse=True)] on the breakdown is the stable
    descending sort: a permutation of the entries, in descending order
    of cost, in which the entries of any one cost keep the order they
    have in the breakdown. *)
Theorem sorted_desc_stable (l : Breakdown) :
  Permutation l (sorted_desc l) /\
  StronglySorted before (sorted_desc l) /\
  forall c : Q,
    filter (fun y => Qeq_bool (snd y) c) (sorted_desc l)
    = filter (fun y => Qeq_bool (snd y) c) l.
Proof.
  split; [apply sorted_desc_perm |]. split; [apply sorted_desc_sorted |].
  intro c. induction l as [| x l IH]; [reflexivity |].
  cbn [sorted_desc]. rewrite insert_desc_filter_eq. cbn [filter].
  now rewrite IH.
Qed.

Lemma filter_below_nil (l : list (string * Q)) (x : string * Q) :
  gt_float (snd x) cutoff = false ->
  Forall (before x) l ->
  filter (fun y => gt_float (snd y) cutoff) l = [].
Proof.
  intros Hx Hl. induction Hl as [| y l Hy Hl IH]; [reflexivity |].
  cbn [filter]. destruct (gt_float (snd y) cutoff) eqn:Ey; [| exact IH].
  exfalso. apply gt_float_true in Ey.
  assert (Hxc : (cutoff < snd x)%Q) by (eapply Qlt_le_trans; [exact Ey | exact Hy]).
  apply gt_float_true in Hxc. congruence.
Qed.

Lemma firstn_nil_filter {A : Type} (f : A -> bool) n (l : list A) :
  filter f l = [] -> filter f (firstn n l) = [].
Proof.
  revert n. induction l as [| x l IH]; intros [| n] H; try reflexivity.
  cbn [firstn filter] in *. destruct (f x); [discriminate | now apply IH].
Qed.

Lemma filter_firstn_sorted n (l : list (string * Q)) :
  StronglySorted before l ->
  filter (fun y => gt_float (snd y) cutoff) (firstn n l)
  = firstn n (filter (fun y => gt_float (snd y) cutoff) l).
Proof.
  intro Hs. revert n. induction Hs as [| x l Hs IH Hx]; intro n.
  - now destruct n.
  - destruct n as [| n]; [reflexivity |].
    cbn [firstn filter]. destruct (gt_float (snd x) cutoff) eqn:Ex.
    + cbn [firstn]. now rewrite IH.
    + rewrite (filter_below_nil l x Ex Hx).
      now rewrite (firstn_nil_filter _ n l (filter_below_nil l x Ex Hx)).
Qed.

Lemma filter_perm {A : Type} (f : A -> bool) (a b : list A) :
  Permutation a b -> Permutation (filter f a) (filter f b).
Proof.
  intro Hab. induction Hab as [| x a b Hab IH | x y a | a b c Hab IH1 Hbc IH2];
    cbn [filter].
  - constructor.
  - destruct (f x); [now constructor | assumption].
  - destruct (f x), (f y); try reflexivity. apply perm_swap.
  - etransitivity; eassumption.
Qed.

Lemma filter_all_below (l : list (string * Q)) :
  Forall (fun x => (snd x <= cutoff)%Q) l ->
  filter (fun x => gt_float (snd x) cutoff) l = [].
Proof.
  intro Hall. induction Hall as [| x l Hx Hall IH]; [reflexivity |].
  cbn [filter]. unfold gt_float at 1.
  apply Qle_bool_iff in Hx. rewrite Hx. exact IH.
Qed.

Lemma join_lines_not_placeholder (x : string * Q) (rest : list string) :
  join nl (service_line x :: rest) <> "  (No significant costs yet)".
Proof.
  unfold join, service_line. cbn [String.concat].
  change ("  - " ++ fst x ++ ": $" ++ fixed2 (snd x))
    with (String " " (String " " (String "-"
            (String " " (fst x ++ ": $" ++ fixed2 (snd x)))))).
  destruct rest as [| y rest].
  - discriminate.
  - change ((String " " (String " " (String "-"
              (String " " (fst x ++ ": $" ++ fixed2 (snd x))))))
            ++ nl ++ String.concat nl (y :: rest))
      with (String " " (String " " (String "-"
              ((String " " (fst x ++ ": $" ++ fixed2 (snd x)))
               ++ nl ++ String.concat nl (y :: rest))))).
    discriminate.
Qed.

Lemma listed_services_int_count (breakdown : Breakdown) (n : nat) :
  listed_services_int breakdown (Z.of_nat n) = listed_services breakdown n.
Proof.
  unfold listed_services_int, listed_services, slice_to, slice_stop.
  destruct (Z.leb_spec 0 (Z.of_nat n)); [| lia].
  now rewrite Nat2Z.id.
Qed.

Lemma listed_services_int_firstn (breakdown : Breakdown) (top_n : Z) :
  listed_services_int breakdown top_n
  = firstn (slice_stop top_n (List.length breakdown))
      (filter (fun x => gt_float (snd x) cutoff) (sorted_desc breakdown)).
Proof.
  unfold listed_services_int, slice_to.
  rewrite <- (Permutation_length (sorted_desc_perm breakdown)).
  apply filter_firstn_sorted, sorted_desc_sorted.
Qed.

Lemma listed_services_int_length (breakdown : Breakdown) (top_n : Z) :
  List.length (listed_services_int breakdown top_n)
  = Nat.min (slice_stop top_n (List.length breakdown))
      (List.length (filter (fun x => gt_float (snd x) cutoff) breakdown)).
Proof.
  rewrite listed_services_int_firstn, length_firstn. f_equal.
  apply Permutation_length, Permutation_sym, filter_perm, sorted_desc_perm.
Qed.

(** X2.  For every int [top_n], cutting the sorted entries with
    [[:top_n]] before dropping those at or below the cutoff gives the
    first [k] of the sorted entries above the cutoff, where [k] is where
    the slice stops on the whole breakdown: [top_n] itself when it is
    not negative, and the length of the breakdown minus [-top_n] (0 when
    that is negative) when it is.  So with [top_n >= 0] no service above
    the cutoff is left out in favour of one below it, and the number
    listed is the smaller of [k] and the number of services above the
    cutoff. *)
Theorem listed_services_top (breakdown : Breakdown) (top_n : Z) :
  let k := if (0 <=? top_n)%Z then Z.to_nat top_n
           else (List.length breakdown - Z.to_nat (- top_n))%nat in
  listed_services_int breakdown top_n
  = firstn k (filter (fun x => gt_float (snd x) cutoff) (sorted_desc breakdown)) /\
  List.length (listed_services_int breakdown top_n)
  = Nat.min k (List.length (filter (fun x => gt_float (snd x) cutoff) breakdown)).
Proof.
  cbv zeta. split.
  - apply listed_services_int_firstn.
  - apply listed_services_int_length.
Qed.

(** A negative [top_n] cuts from the end: [[:-1]] drops the cheapest
    entry before the cutoff is applied. *)
Example listed_services_negative_top_n :
  listed_services_int
    [("a", 5); ("b", 3); ("c", 4611686018427388 # 4611686018427387904)]%Q (-1)
  = [("a", 5); ("b", 3)]%Q /\
  format_top_services_int [("a", 5)]%Q (-1) = "  (No significant costs yet)".
Proof. split; reflexivity. Qed.

(** X3.  For every int [top_n], the formatter answers
    "  (No significant costs yet)" exactly when there is nothing to
    list: [top_n] is 0, or [top_n] is negative and cuts away the whole
    breakdown, or no service of the breakdown (an empty breakdown
    included) costs more than the cutoff. *)
Theorem format_top_services_placeholder (breakdown : Breakdown) (top_n : Z) :
  format_top_services_int breakdown top_n = "  (No significant costs yet)"
  <-> (top_n = 0 \/
       (top_n < 0 /\ Z.of_nat (List.length breakdown) <= - top_n) \/
       Forall (fun x => (snd x <= cutoff)%Q) breakdown)%Z.
Proof.
  assert (Hstop : slice_stop top_n (List.length breakdown) = 0%nat
                  <-> (top_n = 0 \/
                       (top_n < 0 /\ Z.of_nat (List.length breakdown) <= - top_n))%Z).
  { unfold slice_stop. destruct (Z.leb_spec 0 top_n); lia. }
  assert (Habove : filter (fun x => gt_float (snd x) cutoff) breakdown = []
                   <-> Forall (fun x => (snd x <= cutoff)%Q) breakdown).
  { split; [| apply filter_all_below].
    intro Hnil. rewrite Forall_forall. intros x Hx.
    destruct (gt_float (snd x) cutoff) eqn:Ex.
    - assert (Hin : In x (filter (fun x => gt_float (snd x) cutoff) breakdown))
        by (apply filter_In; now split).
      rewrite Hnil in Hin. destruct Hin.
    - unfold gt_float in Ex. apply negb_false_iff in Ex.
      now apply Qle_bool_iff. }
  assert (Hnil : listed_services_int breakdown top_n = []
                 <-> slice_stop top_n (List.length breakdown) = 0%nat \/
                     filter (fun x => gt_float (snd x) cutoff) breakdown = []).
  { rewrite <- !length_zero_iff_nil, listed_services_int_length. lia. }
  rewrite Hstop, Habove in Hnil.
  unfold format_top_services_int.
  destruct (listed_services_int breakdown top_n) as [| x l]; cbn [map].
  - split; [intros _ | reflexivity].
    destruct Hnil as [Hnil _]. specialize (Hnil eq_refl). tauto.
  - split.
    + intro H. exfalso. revert H. apply join_lines_not_placeholder.
    + intro H. exfalso. destruct Hnil as [_ Hnil].
      assert (Hx : x :: l = []) by (apply Hnil; tauto). discriminate.
Qed.

(* ================================================================== *)
(** ** The spelling of the flags *)

Ltac ascii_cases c :=
  destruct c as [[] [] [] [] [] [] [] []]; vm_compute;
  (split;
   [ let H := fresh in intro H; first [discriminate H | now left | now right]
   | let H := fresh in intros [H | H]; first [discriminate H | reflexivity] ]).

Lemma lower_ascii_t c : lower_ascii c = "t"%char <-> c = "t"%char \/ c = "T"%char.
Proof. ascii_cases c. Qed.

Lemma lower_ascii_r c : lower_ascii c = "r"%char <-> c = "r"%char \/ c = "R"%char.
Proof. ascii_cases c. Qed.

Lemma lower_ascii_u c : lower_ascii c = "u"%char <-> c = "u"%char \/ c = "U"%char.
Proof. ascii_cases c. Qed.

Lemma lower_ascii_e c : lower_ascii c = "e"%char <-> c = "e"%char \/ c = "E"%char.
Proof. ascii_cases c. Qed.

Lemma lower_true (s : string) :
  lower s = "true" <->
  exists c1 c2 c3 c4,
    s = String c1 (String c2 (String c3 (String c4 EmptyString))) /\
    (c1 = "t" \/ c1 = "T")%char /\ (c2 = "r" \/ c2 = "R")%char /\
    (c3 = "u" \/ c3 = "U")%char /\ (c4 = "e" \/ c4 = "E")%char.
Proof.
  split.
  - destruct s as [| c1 [| c2 [| c3 [| c4 [| c5 s]]]]]; cbn [lower];
      try discriminate.
    intro H. injection H as H1 H2 H3 H4.
    exists c1, c2, c3, c4. split; [reflexivity |].
    rewrite <- lower_ascii_t, <- lower_ascii_r, <- lower_ascii_u, <- lower_ascii_e.
    tauto.
  - intros (c1 & c2 & c3 & c4 & -> & H1 & H2 & H3 & H4). cbn [lower].
    apply lower_ascii_t in H1. apply lower_ascii_r in H2.
    apply lower_ascii_u in H3. apply lower_ascii_e in H4.
    now rewrite H1, H2, H3, H4.
Qed.

(** X4.  A flag of the environment is on exactly when its value (or the
    default, when the variable is unset) is the word "true" in any mix of
    upper and lower case: four characters, nothing trimmed.  Any other
    value -- "1", "yes", "true" with a space -- is off. *)
Theorem flag_spellings (v : option string) (default : string) :
  flag v default = true <->
  exists c1 c2 c3 c4,
    environ_get v default
    = String c1 (String c2 (String c3 (String c4 EmptyString))) /\
    (c1 = "t" \/ c1 = "T")%char /\ (c2 = "r" \/ c2 = "R")%char /\
    (c3 = "u" \/ c3 = "U")%char /\ (c4 = "e" \/ c4 = "E")%char.
Proof.
  unfold flag. rewrite String.eqb_eq. apply lower_true.
Qed.

(* ================================================================== *)
(** ** The time periods *)

Lemma days_in_month_bounds (y m : Z) : (28 <= days_in_month y m <= 31)%Z.
Proof.
  unfold days_in_month.
  destruct (m =? 2)%Z; [destruct (is_leap y); lia |].
  destruct ((m =? 4) || (m =? 6) || (m =? 9) || (m =? 11))%Z%bool; lia.
Qed.

Lemma tomorrow_defined (today : Date) :
  valid_date today ->
  tomorrow today = None
  <-> (year today = 9999 /\ month today = 12 /\ day today = 31)%Z.
Proof.
  intros (Hy & Hm & Hd). unfold tomorrow.
  destruct (Z.ltb_spec (day today) (days_in_month (year today) (month today)))
    as [Hlt | Hge].
  - pose proof (days_in_month_bounds (year today) (month today)).
    split; [discriminate | intro; exfalso; lia].
  - destruct (Z.ltb_spec (month today) 12) as [Hm12 | Hm12].
    + split; [discriminate | intro; exfalso; lia].
    + assert (Em : month today = 12%Z) by lia.
      assert (Ed : day today = 31%Z).
      { rewrite Em in *. unfold days_in_month in *. cbn in *. lia. }
      destruct (Z.ltb_spec (year today) 9999).
      * split; [discriminate | intro; exfalso; lia].
      * split; [intros _; lia | reflexivity].
Qed.

Lemma tomorrow_valid (today next : Date) :
  valid_date today -> tomorrow today = Some next ->
  valid_date next /\ date_lt today next.
Proof.
  intros (Hy & Hm & Hd). unfold tomorrow, valid_date, date_lt.
  pose proof (days_in_month_bounds (year today) (month today)).
  pose proof (days_in_month_bounds (year today) (month today + 1)).
  pose proof (days_in_month_bounds (year today + 1) 1).
  destruct (Z.ltb_spec (day today) (days_in_month (year today) (month today))).
  - intro E; injection E as <-; cbn. lia.
  - destruct (Z.ltb_spec (month today) 12).
    + intro E; injection E as <-; cbn. lia.
    + destruct (Z.ltb_spec (year today) 9999); [| discriminate].
      intro E; injection E as <-; cbn. lia.
Qed.

(** X5.  The period of the cost query.  For every date but 9999-12-31
    it runs from the first day of today's month to tomorrow: the start
    is not after today, today is before the end, and the end is either
    in today's month or the first day of the next one, so the period
    never reaches into a second month.  On 9999-12-31 the addition of
    one day raises before any query is made. *)
Theorem cost_time_period_spec (today : Date) :
  valid_date today ->
  (cost_time_period today = None
   <-> (year today = 9999 /\ month today = 12 /\ day today = 31)%Z) /\
  forall start_of_month end_date,
    cost_time_period today = Some (start_of_month, end_date) ->
    start_of_month = {| year := year today; month := month today; day := 1 |} /\
    tomorrow today = Some end_date /\
    valid_date end_date /\
    ~ date_lt today start_of_month /\
    date_lt today end_date /\
    date_lt start_of_month end_date /\
    ((year end_date = year today /\ month end_date = month today) \/ day end_date = 1%Z).
Proof.
  intro Hv. unfold cost_time_period. split.
  - rewrite <- (tomorrow_defined today Hv).
    destruct (tomorrow today); split; congruence.
  - intros s e. destruct (tomorrow today) as [next |] eqn:E; [| discriminate].
    intro H. injection H as <- <-.
    destruct (tomorrow_valid today next Hv E) as [Hn Hlt].
    split; [reflexivity |]. split; [reflexivity |]. split; [exact Hn |].
    destruct Hv as (Hy & Hm & Hd).
    unfold date_lt in *. cbn [year month day].
    split; [lia |]. split; [exact Hlt |]. split; [lia |].
    revert E. unfold tomorrow.
    destruct (day today <? _)%Z; [intro E; injection E as <-; cbn; lia |].
    destruct (month today <? 12)%Z; [intro E; injection E as <-; cbn; lia |].
    destruct (year today <? 9999)%Z; [intro E; injection E as <-; cbn; lia |].
    discriminate.
Qed.

Lemma cost_time_period_spec_witness :
  cost_time_period {| year := 2024; month := 2; day := 29 |}
  = Some ({| year := 2024; month := 2; day := 1 |},
          {| year := 2024; month := 3; day := 1 |}) /\
  date_lt {| year := 2024; month := 2; day := 29 |}
          {| year := 2024; month := 3; day := 1 |}.
Proof.
  split; [reflexivity |].
  assert (Hv : valid_date {| year := 2024; month := 2; day := 29 |})
    by (unfold valid_date; cbn; lia).
  destruct (proj2 (cost_time_period_spec _ Hv) _ _ eq_refl)
    as (_ & _ & _ & _ & H & _).
  exact H.
Defined.

(** X6.  The period of the forecast query.  It runs from tomorrow to
    the first day of the month after today's (January of the next year
    in December).  The start is never after the end, and the two are
    the same date exactly on the last day of a month: that day the
    query is made with an empty period.  In December 9999 an exception
    is raised before any query is made. *)
Theorem forecast_time_period_spec (today : Date) :
  valid_date today ->
  (forecast_time_period today = None
   <-> (year today = 9999 /\ month today = 12)%Z) /\
  forall start_date end_of_month,
    forecast_time_period today = Some (start_date, end_of_month) ->
    tomorrow today = Some start_date /\
    end_of_month
    = (if (month today =? 12)%Z
       then {| year := year today + 1; month := 1; day := 1 |}
       else {| year := year today; month := month today + 1; day := 1 |}) /\
    valid_date end_of_month /\
    ~ date_lt end_of_month start_date /\
    (start_date = end_of_month
     <-> day today = days_in_month (year today) (month today)).
Proof.
  intro Hv. pose proof (tomorrow_defined today Hv) as Hnone.
  unfold forecast_time_period. split.
  - destruct (tomorrow today) as [next |] eqn:E.
    + destruct (Z.eqb_spec (month today) 12) as [Em | Em].
      * destruct (Z.leb_spec (year today + 1) 9999).
        -- split; [discriminate | intro; exfalso; lia].
        -- destruct Hv as (Hy & _). split; [intros _; lia | reflexivity].
      * split; [discriminate | intro; exfalso; lia].
    + split; [intros _ | reflexivity]. destruct Hnone as [Hn _].
      specialize (Hn eq_refl). lia.
  - intros s e. destruct (tomorrow today) as [next |] eqn:E; [| discriminate].
    destruct (tomorrow_valid today next Hv E) as [Hn Hlt].
    destruct Hv as (Hy & Hm & Hd).
    pose proof (days_in_month_bounds (year today) (month today)) as Hb.
    revert E. unfold tomorrow.
    destruct (Z.ltb_spec (day today) (days_in_month (year today) (month today)))
      as [Hday | Hday].
    + intro E; injection E as <-.
      destruct (Z.eqb_spec (month today) 12) as [Em | Em].
      * destruct (Z.leb_spec (year today + 1) 9999); [| discriminate].
        intro H'; injection H' as <- <-.
        split; [reflexivity |]. split; [reflexivity |].
        unfold valid_date, date_lt; cbn.
        split; [lia |]. split; [lia |].
        split; [intro H'; injection H' as H1 H2 H3; lia | lia].
      * intro H'; injection H' as <- <-.
        split; [reflexivity |]. split; [reflexivity |].
        pose proof (days_in_month_bounds (year today) (month today + 1)).
        unfold valid_date, date_lt; cbn.
        split; [lia |]. split; [lia |].
        split; [intro H'; injection H' as H1 H2; lia | lia].
    + destruct (Z.ltb_spec (month today) 12) as [Hm12 | Hm12].
      * intro E; injection E as <-.
        destruct (Z.eqb_spec (month today) 12) as [Em | Em]; [lia |].
        intro H'; injection H' as <- <-.
        split; [reflexivity |]. split; [reflexivity |].
        pose proof (days_in_month_bounds (year today) (month today + 1)).
        unfold valid_date, date_lt; cbn.
        split; [lia |]. split; [lia |]. split; [intros _; lia | reflexivity].
      * destruct (Z.ltb_spec (year today) 9999); [| discriminate].
        intro E; injection E as <-.
        destruct (Z.eqb_spec (month today) 12) as [Em | Em]; [| lia].
        destruct (Z.leb_spec (year today + 1) 9999); [| lia].
        intro H'; injection H' as <- <-.
        split; [reflexivity |]. split; [reflexivity |].
        unfold valid_date, date_lt; cbn.
        split; [lia |]. split; [lia |]. split; [intros _; lia | reflexivity].
Qed.

Lemma forecast_time_period_spec_witness :
  forecast_time_period {| year := 2024; month := 12; day := 31 |}
  = Some ({| year := 2025; month := 1; day := 1 |},
          {| year := 2025; month := 1; day := 1 |}) /\
  ~ date_lt {| year := 2025; month := 1; day := 1 |}
            {| year := 2025; month := 1; day := 1 |}.
Proof.
  split; [reflexivity |].
  assert (Hv : valid_date {| year := 2024; month := 12; day := 31 |})
    by (unfold valid_date; cbn; lia).
  destruct (proj2 (forecast_time_period_spec _ Hv) _ _ eq_refl)
    as (_ & _ & _ & H & _).
  exact H.
Defined.

(* ================================================================== *)
(** ** The inventory summary *)

Lemma counted_count_line {A : Set} (resources : list string) (label : string)
  (count : A -> nat) (r : Result A) :
  counted resources label count r
  = (resources ++ count_line (label, answered_count count r))%list.
Proof.
  unfold counted, count_line, append_count, answered_count. cbn [fst snd].
  destruct r as [e | v].
  - cbn. now rewrite app_nil_r.
  - destruct (Nat.ltb 0 (count v)); [reflexivity | now rewrite app_nil_r].
Qed.

(** X7.  [list_active_resources] always makes its five listings, in the
    same order, whatever each of them answers: a refused listing does not
    stop the ones after it.  The summary has one line per category with
    a positive count, in that order; a refused listing counts as zero,
    so it cannot be told from a category with no resource. *)
Theorem list_active_resources_run (W : Type) (h : Handler W) (w : W) :
  let o := run h list_active_resources w in
  exists r1 r2 r3 r4 r5,
    trace o
    = [Ev (DescribeInstances ["running"; "pending"]) r1;
       Ev DescribeDbInstances r2;
       Ev (DescribeNatGateways ["available"; "pending"]) r3;
       Ev ListFunctions r4;
       Ev ListBuckets r5] /\
    value o
    = flat_map count_line
        [("EC2 Instances", answered_count instance_count r1);
         ("RDS Instances", answered_count (@List.length _) r2);
         ("NAT Gateways", answered_count (@List.length _) r3);
         ("Lambda Functions", answered_count (@List.length _) r4);
         ("S3 Buckets", answered_count (@List.length _) r5)].
Proof.
  unfold list_active_resources. cbn [bind call run].
  destruct (h _ (DescribeInstances ["running"; "pending"]) w) as [r1 w1].
  cbn [bind run].
  destruct (h _ DescribeDbInstances w1) as [r2 w2]. cbn [bind run].
  destruct (h _ (DescribeNatGateways ["available"; "pending"]) w2) as [r3 w3].
  cbn [bind run].
  destruct (h _ ListFunctions w3) as [r4 w4]. cbn [bind run].
  destruct (h _ ListBuckets w4) as [r5 w5]. cbn [bind run value trace].
  exists r1, r2, r3, r4, r5. split; [reflexivity |].
  rewrite !counted_count_line. cbn [flat_map].
  now rewrite app_nil_r, <- !app_assoc.
Qed.

(* ================================================================== *)
(** ** The handler: failure of the cost source, notifications *)

(** X8.  When the cost query raises, the handler raises the same error
    and has made no other call: no forecast query, no listing, no
    notification. *)
Theorem cost_fetch_failure_aborts (env : Environ) (W : Type) (h : Handler W)
  (w : W) (e : ClientError) :
  fst (h _ GetCurrentMonthCosts w) = inl e ->
  value (run h (lambda_handler env) w) = inl e /\
  trace (run h (lambda_handler env) w) = [Ev GetCurrentMonthCosts (inl e)].
Proof.
  intro Hfetch.
  pose proof (lambda_handler_run h env w) as Hrun. cbv zeta in Hrun.
  rewrite Hfetch in Hrun. exact Hrun.
Qed.

Lemma cost_fetch_failure_aborts_witness :
  value (run (scripted account_no_billing) (lambda_handler env_execute) tt)
    = inl "AccessDeniedException" /\
  trace (run (scripted account_no_billing) (lambda_handler env_execute) tt)
    = [Ev GetCurrentMonthCosts (inl "AccessDeniedException")].
Proof.
  apply (cost_fetch_failure_aborts env_execute unit (scripted account_no_billing) tt).
  reflexivity.
Defined.

Lemma execute_resource_nuke_one_notification {W : Type} (h : Handler W) env w :
  count_kind Notification (trace (run h (execute_resource_nuke env) w)) = 1%nat.
Proof.
  destruct (enable_nuke env) eqn:Ee; [destruct (dry_run env) eqn:Ed |].
  - rewrite (execute_resource_nuke_dry_run env Ee Ed).
    rewrite run_bind. cbn [trace]. rewrite count_kind_app.
    rewrite (count_kind_none Notification (fun k => k = Inventory)
               (trace (run h list_active_resources w)));
      [| discriminate
       | apply (only_trace h (fun k => k = Inventory)),
           list_active_resources_only].
    rewrite run_bind, run_call. reflexivity.
  - rewrite (execute_resource_nuke_execute env Ee Ed).
    destruct (nuke_run h env w)
      as (r1 & t1 & r2 & t2 & r3 & t3 & ok & Ht & _ & M1 & M2 & M3 & _).
    rewrite Ht, !count_kind_app.
    rewrite !(count_kind_block Notification) by (reflexivity || assumption).
    reflexivity.
  - rewrite (execute_resource_nuke_skip env Ee).
    rewrite run_bind, run_call. reflexivity.
Qed.

(** X9.  The number of notifications of a run that returns is fixed by
    the tier: two in the Critical tier (the warning, then exactly one of
    the skipped, dry-run or completion messages), one in the Alert tier,
    and in the Normal tier one if the daily summary is on and none
    otherwise. *)
Theorem notifications_per_tier (env : Environ) (W : Type) (h : Handler W)
  (w : W) (report : Report) :
  let o := run h (lambda_handler env) w in
  value o = inr report ->
  count_kind Notification (trace o)
  = match classify (current_cost report) (alert_threshold report)
            (critical_threshold report) with
    | Critical => 2%nat
    | Alert => 1%nat
    | Normal => if flag (SEND_DAILY_SUMMARY env) "false" then 1%nat else 0%nat
    end.
Proof.
  cbv zeta. intro Hret.
  pose proof (lambda_handler_run h env w) as Hrun. cbv zeta in Hrun.
  destruct (fst (h _ GetCurrentMonthCosts w)) as [e | cost_info].
  { destruct Hrun as [Hv _]. congruence. }
  destruct (classify (total_cost cost_info) _ _) eqn:Htier;
    destruct Hrun as [Hv Ht]; rewrite Hv in Hret; injection Hret as <-;
    cbn [current_cost alert_threshold critical_threshold];
    rewrite Htier, Ht.
  - destruct (flag (SEND_DAILY_SUMMARY env) "false"); reflexivity.
  - reflexivity.
  - destruct (trigger_nuke_warning_run h env cost_info (critical_level env)
                (snd (h _ GetForecastedMonthEndCost
                        (snd (h _ GetCurrentMonthCosts w))))) as [Hw _].
    cbv zeta in Hw. rewrite Hw, !count_kind_app.
    rewrite execute_resource_nuke_one_notification.
    rewrite (count_kind_none Notification (fun k => k = Inventory)
               (trace (run h list_active_resources _)));
      [| discriminate
       | apply (only_trace h (fun k => k = Inventory)),
           list_active_resources_only].
    reflexivity.
Qed.

Lemma notifications_per_tier_witness :
  count_kind Notification
    (trace (run (scripted (account 60)) (lambda_handler env_dry_run) tt))
  = 2%nat.
Proof.
  apply (notifications_per_tier env_dry_run unit (scripted (account 60)) tt
           {| statusCode := 200; current_cost := 60; alert_threshold := 10;
              critical_threshold := 50; forecasted_cost := Some (60 + 10)%Q;
              alert_sent := true; nuke_triggered := true;
              nuke_result :=
                Some (DryRun ["EC2 Instances: 2"; "RDS Instances: 2";
                              "NAT Gateways: 3"; "Lambda Functions: 1"]) |}).
  reflexivity.
Defined.

(** X10.  A run of the handler makes a mutating call only if the total
    reached the critical threshold, [ENABLE_AUTO_NUKE] is set to a
    spelling of "true", and [NUKE_DRY_RUN] is set to something that is
    not a spelling of "true".  With either variable unset nothing is
    ever stopped or deleted. *)
Theorem mutation_needs_opt_in (env : Environ) (W : Type) (h : Handler W) (w : W) :
  count_kind Mutation (trace (run h (lambda_handler env) w)) <> 0%nat ->
  exists cost_info,
    fst (h _ GetCurrentMonthCosts w) = inr cost_info /\
    (critical_level env <= total_cost cost_info)%Q /\
    (exists s, ENABLE_AUTO_NUKE env = Some s /\ lower s = "true") /\
    (exists s, NUKE_DRY_RUN env = Some s /\ lower s <> "true").
Proof.
  intro Hmut.
  assert (Hgate : enable_nuke env = true /\ dry_run env = false).
  { destruct (enable_nuke env) eqn:Ee; [destruct (dry_run env) eqn:Ed |];
      [ | now split | ]; exfalso; apply Hmut;
      apply (count_kind_none Mutation (fun k => k <> Mutation));
      try (intro H; now apply H);
      apply (only_trace h (fun k => k <> Mutation)), handler_gate_closed_only;
      [now right | now left]. }
  destruct Hgate as [Ee Ed].
  pose proof (lambda_handler_run h env w) as Hrun. cbv zeta in Hrun.
  destruct (fst (h _ GetCurrentMonthCosts w)) as [e | cost_info].
  { exfalso. apply Hmut. destruct Hrun as [_ Ht]. now rewrite Ht. }
  exists cost_info. split; [reflexivity |].
  split; [| split].
  - destruct (classify (total_cost cost_info) _ _) eqn:Htier.
    + exfalso. apply Hmut. destruct Hrun as [_ Ht]. rewrite Ht.
      destruct (flag (SEND_DAILY_SUMMARY env) "false"); reflexivity.
    + exfalso. apply Hmut. destruct Hrun as [_ Ht]. now rewrite Ht.
    + unfold classify in Htier.
      destruct (ge_float (total_cost cost_info) (critical_level env)) eqn:Ec.
      * now apply ge_float_true.
      * destruct (ge_float (total_cost cost_info) (alert_level env));
          discriminate.
  - unfold enable_nuke, flag in Ee.
    destruct (ENABLE_AUTO_NUKE env) as [s |]; [| discriminate].
    exists s. split; [reflexivity |]. now apply String.eqb_eq.
  - unfold dry_run, flag in Ed.
    destruct (NUKE_DRY_RUN env) as [s |]; [| discriminate].
    exists s. split; [reflexivity |]. now apply String.eqb_neq.
Qed.

Lemma mutation_needs_opt_in_witness :
  exists cost_info,
    fst (scripted (account 60) _ GetCurrentMonthCosts tt) = inr cost_info /\
    (critical_level env_execute <= total_cost cost_info)%Q /\
    (exists s, ENABLE_AUTO_NUKE env_execute = Some s /\ lower s = "true") /\
    (exists s, NUKE_DRY_RUN env_execute = Some s /\ lower s <> "true").
Proof.
  apply (mutation_needs_opt_in env_execute unit (scripted (account 60)) tt).
  vm_compute. discriminate.
Defined.

(* ================================================================== *)
(** ** Where the notifications go *)

Section Every.
Context {W : Type} (h : Handler W).

Lemma every_trace (P : forall R : Set, Call R -> Prop) {A : Type} (p : Prog A) :
  every P p -> forall w, Forall (event_call P) (trace (run h p w)).
Proof.
  induction p as [a | R c k IH]; cbn [every run]; intros Hp w.
  - constructor.
  - destruct Hp as [Hc Hk].
    destruct (h R c w) as [r w1]; cbn [trace].
    constructor; [exact Hc | now apply IH].
Qed.
End Every.

Lemma every_bind (P : forall R : Set, Call R -> Prop) {A B : Type}
  (m : Prog A) (f : A -> Prog B) :
  every P m -> (forall a, every P (f a)) -> every P (bind m f).
Proof.
  induction m as [a | R c k IH]; cbn [every bind]; intros Hm Hf.
  - apply Hf.
  - destruct Hm as [Hc Hk]. split; [exact Hc | intro r; now apply IH].
Qed.

Lemma every_silent (P : forall R : Set, Call R -> Prop) {A : Type} (p : Prog A) :
  (forall (R : Set) (c : Call R), kind c <> Notification -> P R c) ->
  only (fun k => k <> Notification) p -> every P p.
Proof.
  intro HP. induction p as [a | R c k IH]; cbn [only every]; [trivial |].
  intros [Hc Hk]. split; [now apply HP | intro r; now apply IH].
Qed.

Lemma addressed_silent env (R : Set) (c : Call R) :
  kind c <> Notification -> addressed env R c.
Proof. destruct c; cbn; trivial. congruence. Qed.

Lemma delete_each_silent nats log :
  only (fun k => k <> Notification) (delete_each nats log).
Proof.
  revert log. induction nats as [| g rest IH]; intro log; cbn; [trivial |].
  split; [discriminate |]. intros [e | u]; [exact I | apply IH].
Qed.

Lemma stop_each_silent dbs log :
  only (fun k => k <> Notification) (stop_each dbs log).
Proof.
  revert log. induction dbs as [| db rest IH]; intro log; cbn; [trivial |].
  destruct (String.eqb (DBInstanceStatus db) "available"); [| apply IH].
  cbn. split; [discriminate |]. intros [e | u]; apply IH.
Qed.

Lemma nuke_addressed env : every (addressed env) (nuke env).
Proof.
  unfold nuke.
  apply every_bind.
  { apply every_silent; [apply addressed_silent |].
    unfold stop_ec2. cbn. split; [discriminate |].
    intros [e | rs]; [exact I |].
    destruct (instance_ids rs); [exact I |]. cbn.
    split; [discriminate |]. intros [e | u]; exact I. }
  intro log1. apply every_bind.
  { apply every_silent; [apply addressed_silent |].
    unfold delete_nat_gateways. cbn. split; [discriminate |].
    intros [e | nats]; [exact I |].
    apply only_bind; [apply delete_each_silent |].
    intros [log [e |]]; exact I. }
  intro log2. apply every_bind.
  { apply every_silent; [apply addressed_silent |].
    unfold stop_rds. cbn. split; [discriminate |].
    intros [e | dbs]; [exact I | apply stop_each_silent]. }
  intro log3. cbn. split; [| trivial].
  split; [reflexivity |]. split; [cbn; tauto | discriminate].
Qed.

Lemma lambda_handler_addressed env : every (addressed env) (lambda_handler env).
Proof.
  assert (Hlist : every (addressed env) list_active_resources).
  { apply every_silent; [apply addressed_silent |].
    apply only_weaken with (P := fun k => k = Inventory);
      [intros k ->; discriminate | apply list_active_resources_only]. }
  unfold lambda_handler. cbn.
  split; [exact I |]. intros [e | cost_info]; [exact I |]. cbn.
  split; [exact I |]. intros f.
  destruct (classify _ _ _).
  - apply every_bind; [| intros; exact I].
    destruct (flag (SEND_DAILY_SUMMARY env) "false"); cbn; [| exact I].
    split; [| trivial].
    split; [reflexivity |]. split; [cbn; tauto | discriminate].
  - cbn. split; [| trivial].
    split; [reflexivity |]. split; [cbn; tauto | discriminate].
  - apply every_bind.
    + unfold trigger_nuke_warning. apply every_bind; [exact Hlist |].
      intro resources. cbn. split; [| trivial].
      split; [reflexivity |]. split; [cbn; tauto | discriminate].
    + intros _. apply every_bind; [| intros; exact I].
      unfold execute_resource_nuke.
      destruct (enable_nuke env); cbn [negb].
      * destruct (dry_run env); [| apply nuke_addressed].
        apply every_bind; [exact Hlist |].
        intro resources. cbn. split; [| trivial].
        split; [reflexivity |]. split; [cbn; tauto | discriminate].
      * cbn. split; [| trivial].
        split; [reflexivity |]. split; [cbn; tauto | discriminate].
Qed.

(** X11.  Every notification of every run of the handler goes to the
    configured topic ([NTFY_TOPIC], or "aws-cost-alerts" when unset),
    has priority "low", "high" or "urgent", and carries at least one
    tag, so the default tags of [send_ntfy_alert] are never used. *)
Theorem notifications_addressed (env : Environ) (W : Type) (h : Handler W) (w : W)
  (topic : string) (title message : Text) (priority : string)
  (tags : list string) (ok : bool) :
  In (Ev (SendNtfyAlert topic title message priority tags) ok)
     (trace (run h (lambda_handler env) w)) ->
  topic = environ_get (NTFY_TOPIC env) "aws-cost-alerts" /\
  (priority = "low" \/ priority = "high" \/ priority = "urgent") /\
  tags <> [].
Proof.
  intro Hin.
  pose proof (every_trace h (addressed env) (lambda_handler env)
                (lambda_handler_addressed env) w) as Hall.
  rewrite Forall_forall in Hall. apply Hall in Hin.
  cbn in Hin. destruct Hin as (Ht & Hp & Hg).
  split; [exact Ht |]. split; [| exact Hg].
  destruct Hp as [<- | [<- | [<- | []]]]; tauto.
Qed.

Lemma notifications_addressed_witness :
  "aws-cost-alerts" = environ_get (NTFY_TOPIC env_default) "aws-cost-alerts" /\
  ("high" = "low" \/ "high" = "high" \/ "high" = "urgent") /\
  ["hand"; "warning"] <> [].
Proof.
  apply (notifications_addressed env_default unit (scripted (account 60)) tt
           "aws-cost-alerts" skipped_title skipped_message "high"
           ["hand"; "warning"] true).
  cbn. do 8 right. left. reflexivity.
Defined.

(* ================================================================== *)
(** ** Deliveries are not looked at *)

Lemma deaf_bind {A B : Type} (m : Prog A) (f : A -> Prog B) :
  deaf m -> (forall a, deaf (f a)) -> deaf (bind m f).
Proof.
  induction m as [a | R c k IH]; cbn [deaf bind]; intros Hm Hf.
  - apply Hf.
  - destruct Hm as [Hk Hc]. split; [intro r; now apply IH |].
    destruct c; trivial. cbn in *. now rewrite Hc.
Qed.

Lemma deaf_silent {A : Type} (p : Prog A) :
  only (fun k => k <> Notification) p -> deaf p.
Proof.
  induction p as [a | R c k IH]; cbn [only deaf]; [trivial |].
  intros [Hc Hk]. split; [intro r; now apply IH |].
  destruct c; trivial. now contradiction Hc.
Qed.

Lemma list_active_resources_silent :
  only (fun k => k <> Notification) list_active_resources.
Proof.
  apply only_weaken with (P := fun k => k = Inventory);
    [intros k ->; discriminate | apply list_active_resources_only].
Qed.

Lemma nuke_deaf env : deaf (nuke env).
Proof.
  unfold nuke.
  apply deaf_bind.
  { apply deaf_silent. unfold stop_ec2. cbn. split; [discriminate |].
    intros [e | rs]; [exact I |].
    destruct (instance_ids rs); [exact I |]. cbn.
    split; [discriminate |]. intros [e | u]; exact I. }
  intro log1. apply deaf_bind.
  { apply deaf_silent. unfold delete_nat_gateways. cbn. split; [discriminate |].
    intros [e | nats]; [exact I |].
    apply only_bind; [apply delete_each_silent |].
    intros [log [e |]]; exact I. }
  intro log2. apply deaf_bind.
  { apply deaf_silent. unfold stop_rds. cbn. split; [discriminate |].
    intros [e | dbs]; [exact I | apply stop_each_silent]. }
  intro log3. cbn. split; [trivial | reflexivity].
Qed.

Lemma lambda_handler_deaf env : deaf (lambda_handler env).
Proof.
  unfold lambda_handler. cbn.
  split; [| exact I]. intros [e | cost_info]; [exact I |]. cbn.
  split; [| exact I]. intros f.
  destruct (classify _ _ _).
  - apply deaf_bind; [| intros; exact I].
    destruct (flag (SEND_DAILY_SUMMARY env) "false"); cbn; [| exact I].
    split; [trivial | reflexivity].
  - cbn. split; [trivial | reflexivity].
  - apply deaf_bind.
    + unfold trigger_nuke_warning. apply deaf_bind.
      * apply deaf_silent, list_active_resources_silent.
      * intro resources. cbn. split; [trivial | reflexivity].
    + intros _. apply deaf_bind; [| intros; exact I].
      unfold execute_resource_nuke.
      destruct (enable_nuke env); cbn [negb].
      * destruct (dry_run env); [| apply nuke_deaf].
        apply deaf_bind; [apply deaf_silent, list_active_resources_silent |].
        intro resources. cbn. split; [trivial | reflexivity].
      * cbn. split; [trivial | reflexivity].
Qed.

Lemma deaf_run {W A : Type} (h1 h2 : Handler W) (p : Prog A) :
  (forall (R : Set) (c : Call R) (w : W),
     kind c <> Notification -> h1 R c w = h2 R c w) ->
  (forall (R : Set) (c : Call R) (w : W), snd (h1 R c w) = snd (h2 R c w)) ->
  deaf p ->
  forall w,
    value (run h1 p w) = value (run h2 p w) /\
    map erase_delivery (trace (run h1 p w))
    = map erase_delivery (trace (run h2 p w)).
Proof.
  intros Hsame Hworld.
  induction p as [a | R c k IH]; cbn [deaf run]; intros Hd w.
  - now split.
  - destruct Hd as [Hk Hc].
    assert (Hcase : kind c <> Notification \/ kind c = Notification)
      by (destruct (kind c); (now right) || (left; discriminate)).
    destruct Hcase as [Hne | Hn].
    + rewrite (Hsame R c w Hne). destruct (h2 R c w) as [r w1].
      cbn [value trace map]. destruct (IH r (Hk r) w1) as [Hv Ht].
      split; [exact Hv | now rewrite Ht].
    + destruct c; try discriminate.
      pose proof (Hworld _ (SendNtfyAlert topic title message priority tags) w)
        as Hw.
      destruct (h1 _ (SendNtfyAlert topic title message priority tags) w)
        as [b1 w1].
      destruct (h2 _ (SendNtfyAlert topic title message priority tags) w)
        as [b2 w2].
      cbn [snd] in Hw. subst w2. cbn [value trace map].
      assert (Hb : k b1 = k b2) by (destruct b1, b2; congruence).
      destruct (IH b1 (Hk b1) w1) as [Hv Ht]. rewrite <- Hb.
      split; [exact Hv |]. cbn [erase_delivery]. now rewrite Ht.
Qed.

(** X12.  Whether a notification is delivered never changes what the
    handler does next or returns.  Take two accounts that answer every
    other call alike and move on alike: the two runs return the same
    value and make the same calls with the same answers, the delivery
    flags apart. *)
Theorem delivery_ignored (env : Environ) (W : Type) (h1 h2 : Handler W) (w : W) :
  (forall (R : Set) (c : Call R) (w : W),
     kind c <> Notification -> h1 R c w = h2 R c w) ->
  (forall (R : Set) (c : Call R) (w : W), snd (h1 R c w) = snd (h2 R c w)) ->
  value (run h1 (lambda_handler env) w) = value (run h2 (lambda_handler env) w) /\
  map erase_delivery (trace (run h1 (lambda_handler env) w))
  = map erase_delivery (trace (run h2 (lambda_handler env) w)).
Proof.
  intros Hsame Hworld.
  apply (deaf_run h1 h2 (lambda_handler env) Hsame Hworld).
  apply lambda_handler_deaf.
Qed.

Lemma delivery_ignored_witness :
  value (run (scripted (account_gateway_failure 60)) (lambda_handler env_execute) tt)
  = value (run (scripted (undelivered (account_gateway_failure 60)))
             (lambda_handler env_execute) tt) /\
  map erase_delivery
    (trace (run (scripted (account_gateway_failure 60))
              (lambda_handler env_execute) tt))
  = map erase_delivery
      (trace (run (scripted (undelivered (account_gateway_failure 60)))
                (lambda_handler env_execute) tt)).
Proof.
  apply (delivery_ignored env_execute unit
           (scripted (account_gateway_failure 60))
           (scripted (undelivered (account_gateway_failure 60))) tt).
  - intros R c w Hk. destruct c; try reflexivity. now contradiction Hk.
  - intros R c w. destruct c; reflexivity.
Defined.

(* ================================================================== *)
(** ** The cleanup touches what it listed *)

Section CleanupTargets.
Context {W : Type} (h : Handler W).

Lemma flat_map_other {B : Type} (f : Event -> list B) (mine other : Category)
  (t : list Event) :
  (forall e, f e <> [] -> event_category e = Some mine) ->
  other <> mine ->
  Forall (fun e => event_category e = Some other) t ->
  flat_map f t = [].
Proof.
  intros Hf Hne Ht. induction Ht as [| e t He Ht IH]; [reflexivity |].
  cbn [flat_map]. rewrite IH, app_nil_r.
  destruct (f e) as [| b l] eqn:Efe; [reflexivity |].
  exfalso. apply Hne.
  assert (Hm : event_category e = Some mine) by (apply Hf; congruence).
  congruence.
Qed.

Lemma instance_listing_category e :
  instance_listing e <> [] -> event_category e = Some Compute.
Proof. destruct e as [R c r]; destruct c; cbn; congruence. Qed.

Lemma instance_stop_category e :
  instance_stop e <> [] -> event_category e = Some Compute.
Proof. destruct e as [R c r]; destruct c; cbn; congruence. Qed.

Lemma db_listing_category e :
  db_listing e <> [] -> event_category e = Some Database.
Proof. destruct e as [R c r]; destruct c; cbn; congruence. Qed.

Lemma db_stop_category e :
  db_stop e <> [] -> event_category e = Some Database.
Proof. destruct e as [R c r]; destruct c; cbn; congruence. Qed.

(** The compute block: one listing, then at most one call, for all the
    listed instances at once. *)
Lemma stop_ec2_targets (log : Log) (w : W) :
  let o := run h (stop_ec2 log) w in
  Forall (fun e => event_category e = Some Compute) (trace o) /\
  exists r1,
    flat_map instance_listing (trace o) = [r1] /\
    match r1 with
    | inl e =>
        flat_map instance_stop (trace o) = [] /\
        flat_map failed_entry (trace o) = ["EC2: " ++ e]
    | inr rs =>
        match instance_ids rs with
        | [] => flat_map instance_stop (trace o) = []
        | ids => exists r, flat_map instance_stop (trace o) = [(ids, r)]
        end
    end.
Proof.
  unfold stop_ec2. cbn.
  destruct (h _ (DescribeInstances ["running"]) w) as [[e | rs] w1]; cbn.
  - split; [repeat constructor |]. exists (inl e). repeat split.
  - destruct (instance_ids rs) as [| i ids] eqn:Eids; cbn.
    + split; [repeat constructor |]. exists (inr rs). rewrite Eids. now split.
    + destruct (h _ (StopInstances (i :: ids)) w1) as [r w2]; cbn.
      split; [destruct r; repeat constructor |].
      exists (inr rs). rewrite Eids.
      destruct r as [e | u]; cbn; (split; [reflexivity |]); eexists; reflexivity.
Qed.

Lemma delete_each_category (nats : list NatGateway) (log : Log) (w : W) :
  Forall (fun e => event_category e = Some Gateway)
    (trace (run h (delete_each nats log) w)).
Proof.
  revert log w. induction nats as [| g rest IH]; intros log w; cbn.
  - constructor.
  - destruct (h _ (DeleteNatGateway (NatGatewayId g)) w) as [[e | u] w1]; cbn.
    + repeat constructor.
    + constructor; [reflexivity | apply IH].
Qed.

Lemma delete_nat_gateways_category (log : Log) (w : W) :
  Forall (fun e => event_category e = Some Gateway)
    (trace (run h (delete_nat_gateways log) w)).
Proof.
  unfold delete_nat_gateways. cbn.
  destruct (h _ (DescribeNatGateways ["available"]) w) as [[e | nats] w1]; cbn.
  - repeat constructor.
  - constructor; [reflexivity |]. rewrite run_bind. cbn [trace].
    apply Forall_app. split; [apply delete_each_category |].
    destruct (value (run h (delete_each nats log) w1)) as [log1 [e |]];
      constructor.
Qed.

(** The database loop: one stop per available database, in order. *)
Lemma stop_each_targets (dbs : list DBInstance) (log : Log) (w : W) :
  let o := run h (stop_each dbs log) w in
  Forall (fun e => event_category e = Some Database) (trace o) /\
  flat_map db_listing (trace o) = [] /\
  map fst (flat_map db_stop (trace o))
  = map DBInstanceIdentifier (filter available dbs).
Proof.
  revert log w. induction dbs as [| db rest IH]; intros log w; cbn.
  - repeat split. constructor.
  - unfold available at 1.
    destruct (String.eqb (DBInstanceStatus db) "available"); [| apply IH].
    cbn.
    destruct (h _ (StopDbInstance (DBInstanceIdentifier db)) w) as [[e | u] w1];
      cbn;
      [destruct (IH log w1) as (Hc & Hl & Hs)
      |destruct (IH (add_terminated log
                       ("Stopped RDS: " ++ DBInstanceIdentifier db)) w1)
         as (Hc & Hl & Hs)];
      (split; [now constructor |]); (split; [exact Hl |]); now rewrite Hs.
Qed.

Lemma stop_rds_targets (log : Log) (w : W) :
  let o := run h (stop_rds log) w in
  Forall (fun e => event_category e = Some Database) (trace o) /\
  exists r3,
    flat_map db_listing (trace o) = [r3] /\
    match r3 with
    | inl e =>
        flat_map db_stop (trace o) = [] /\
        flat_map failed_entry (trace o) = ["RDS: " ++ e]
    | inr dbs =>
        map fst (flat_map db_stop (trace o))
        = map DBInstanceIdentifier (filter available dbs)
    end.
Proof.
  unfold stop_rds. cbn.
  destruct (h _ DescribeDbInstances w) as [[e | dbs] w1]; cbn.
  - split; [repeat constructor |]. exists (inl e). repeat split.
  - destruct (stop_each_targets dbs log w1) as (Hc & Hl & Hs).
    split; [now constructor |]. exists (inr dbs). now rewrite Hl, Hs.
Qed.

(** The trace and the value of the cleanup, block by block. *)
Lemma nuke_blocks (env : Environ) (w : W) :
  let o1 := run h (stop_ec2 {| terminated := []; errors := [] |}) w in
  let o2 := run h (delete_nat_gateways (value o1)) (world o1) in
  let o3 := run h (stop_rds (value o2)) (world o2) in
  exists ok,
    trace (run h (nuke env) w)
    = (trace o1 ++ trace o2 ++ trace o3
       ++ [Ev (SendNtfyAlert (ntfy_topic env) complete_title
                 (complete_message (terminated (value o3)) (errors (value o3)))
                 "urgent" ["skull"; "check"]) ok])%list /\
    value (run h (nuke env) w)
    = Executed (terminated (value o3)) (errors (value o3)) /\
    incl (flat_map failed_entry (trace o1)) (errors (value o3)) /\
    incl (flat_map failed_entry (trace o2)) (errors (value o3)) /\
    incl (flat_map failed_entry (trace o3)) (errors (value o3)).
Proof.
  cbv zeta. unfold nuke. rewrite !run_bind, run_call. cbn [value trace world].
  set (log0 := {| terminated := []; errors := [] |}).
  set (o1 := run h (stop_ec2 log0) w).
  set (o2 := run h (delete_nat_gateways (value o1)) (world o1)).
  set (o3 := run h (stop_rds (value o2)) (world o2)).
  destruct (stop_ec2_run h log0 w) as (_ & _ & _ & _ & [_ F1] & _).
  destruct (delete_nat_gateways_run h (value o1) (world o1))
    as (_ & _ & _ & _ & [_ F2] & _).
  destruct (stop_rds_run h (value o2) (world o2)) as (_ & _ & _ & _ & [_ F3] & _).
  fold o1 in F1. fold o2 in F2. fold o3 in F3.
  eexists. rewrite app_nil_r.
  split; [reflexivity |]. split; [reflexivity |].
  rewrite F3, F2, F1. cbn [errors log0 app].
  repeat split; intros x Hx; rewrite !in_app_iff; tauto.
Qed.
End CleanupTargets.

(** X13.  On the Execute path the running instances are listed once.
    If the listing is refused, no instance is stopped and the error is
    reported under "EC2".  If it lists no instance, [stop_instances] is
    not called.  Otherwise [stop_instances] is called exactly once, for
    all the listed instances together, in the order of the listing. *)
Theorem instances_stopped_in_one_batch (env : Environ) (W : Type)
  (h : Handler W) (w : W) :
  enable_nuke env = true -> dry_run env = false ->
  let o := run h (execute_resource_nuke env) w in
  exists r1 done failed,
    value o = Executed done failed /\
    flat_map instance_listing (trace o) = [r1] /\
    match r1 with
    | inl e =>
        flat_map instance_stop (trace o) = [] /\ In ("EC2: " ++ e) failed
    | inr reservations =>
        match instance_ids reservations with
        | [] => flat_map instance_stop (trace o) = []
        | ids => exists r, flat_map instance_stop (trace o) = [(ids, r)]
        end
    end.
Proof.
  intros He Hd. cbv zeta. rewrite (execute_resource_nuke_execute env He Hd).
  destruct (nuke_blocks h env w) as (ok & Ht & Hv & I1 & _ & _).
  cbv zeta in Ht, Hv, I1.
  destruct (stop_ec2_targets h {| terminated := []; errors := [] |} w)
    as (_ & r1 & L1 & S1).
  cbv zeta in L1, S1.
  set (o1 := run h (stop_ec2 {| terminated := []; errors := [] |}) w) in *.
  set (o2 := run h (delete_nat_gateways (value o1)) (world o1)) in *.
  set (o3 := run h (stop_rds (value o2)) (world o2)) in *.
  assert (C2 := delete_nat_gateways_category h (value o1) (world o1)).
  assert (C3 := proj1 (stop_rds_targets h (value o2) (world o2))).
  fold o2 in C2. cbv zeta in C3. fold o3 in C3.
  assert (Hl : flat_map instance_listing (trace (run h (nuke env) w)) = [r1]).
  { rewrite Ht, !flat_map_app, L1.
    rewrite (flat_map_other instance_listing Compute Gateway (trace o2)
               instance_listing_category ltac:(discriminate) C2).
    rewrite (flat_map_other instance_listing Compute Database (trace o3)
               instance_listing_category ltac:(discriminate) C3).
    reflexivity. }
  assert (Hs : flat_map instance_stop (trace (run h (nuke env) w))
               = flat_map instance_stop (trace o1)).
  { rewrite Ht, !flat_map_app.
    rewrite (flat_map_other instance_stop Compute Gateway (trace o2)
               instance_stop_category ltac:(discriminate) C2).
    rewrite (flat_map_other instance_stop Compute Database (trace o3)
               instance_stop_category ltac:(discriminate) C3).
    cbn. now rewrite app_nil_r. }
  exists r1. do 2 eexists. split; [exact Hv |]. split; [exact Hl |].
  rewrite Hs. destruct r1 as [e | rs]; [| exact S1].
  destruct S1 as [S1 F1]. split; [exact S1 |].
  apply I1. rewrite F1. now left.
Qed.

Lemma instances_stopped_in_one_batch_witness :
  let o := run (scripted (account_partial)) (execute_resource_nuke env_execute) tt in
  exists r1 done failed,
    value o = Executed done failed /\
    flat_map instance_listing (trace o) = [r1] /\
    match r1 with
    | inl e =>
        flat_map instance_stop (trace o) = [] /\ In ("EC2: " ++ e) failed
    | inr reservations =>
        match instance_ids reservations with
        | [] => flat_map instance_stop (trace o) = []
        | ids => exists r, flat_map instance_stop (trace o) = [(ids, r)]
        end
    end.
Proof.
  apply (instances_stopped_in_one_batch env_execute unit
           (scripted account_partial) tt); reflexivity.
Defined.

(** X14.  On the Execute path the databases are listed once.  If the
    listing is refused, no database is stopped and the error is reported
    under "RDS".  Otherwise [stop_db_instance] is called exactly once
    for each listed database whose status is "available", in the order
    of the listing, and for no other: a stop that fails does not keep
    the later databases from being tried. *)
Theorem every_available_database_tried (env : Environ) (W : Type)
  (h : Handler W) (w : W) :
  enable_nuke env = true -> dry_run env = false ->
  let o := run h (execute_resource_nuke env) w in
  exists r3 done failed,
    value o = Executed done failed /\
    flat_map db_listing (trace o) = [r3] /\
    match r3 with
    | inl e => flat_map db_stop (trace o) = [] /\ In ("RDS: " ++ e) failed
    | inr dbs =>
        map fst (flat_map db_stop (trace o))
        = map DBInstanceIdentifier (filter available dbs)
    end.
Proof.
  intros He Hd. cbv zeta. rewrite (execute_resource_nuke_execute env He Hd).
  destruct (nuke_blocks h env w) as (ok & Ht & Hv & _ & _ & I3).
  cbv zeta in Ht, Hv, I3.
  set (o1 := run h (stop_ec2 {| terminated := []; errors := [] |}) w) in *.
  set (o2 := run h (delete_nat_gateways (value o1)) (world o1)) in *.
  set (o3 := run h (stop_rds (value o2)) (world o2)) in *.
  assert (C1 := proj1 (stop_ec2_targets h {| terminated := []; errors := [] |} w)).
  assert (C2 := delete_nat_gateways_category h (value o1) (world o1)).
  destruct (stop_rds_targets h (value o2) (world o2)) as (_ & r3 & L3 & S3).
  cbv zeta in C1, L3, S3. fold o1 in C1. fold o2 in C2. fold o3 in L3, S3.
  assert (Hl : flat_map db_listing (trace (run h (nuke env) w)) = [r3]).
  { rewrite Ht, !flat_map_app, L3.
    rewrite (flat_map_other db_listing Database Compute (trace o1)
               db_listing_category ltac:(discriminate) C1).
    rewrite (flat_map_other db_listing Database Gateway (trace o2)
               db_listing_category ltac:(discriminate) C2).
    reflexivity. }
  assert (Hs : flat_map db_stop (trace (run h (nuke env) w))
               = flat_map db_stop (trace o3)).
  { rewrite Ht, !flat_map_app.
    rewrite (flat_map_other db_stop Database Compute (trace o1)
               db_stop_category ltac:(discriminate) C1).
    rewrite (flat_map_other db_stop Database Gateway (trace o2)
               db_stop_category ltac:(discriminate) C2).
    cbn. now rewrite app_nil_r. }
  exists r3. do 2 eexists. split; [exact Hv |]. split; [exact Hl |].
  rewrite Hs. destruct r3 as [e | dbs]; [| exact S3].
  destruct S3 as [S3 F3]. split; [exact S3 |].
  apply I3. rewrite F3. now left.
Qed.

Lemma every_available_database_tried_witness :
  let o := run (scripted (account_partial)) (execute_resource_nuke env_execute) tt in
  exists r3 done failed,
    value o = Executed done failed /\
    flat_map db_listing (trace o) = [r3] /\
    match r3 with
    | inl e => flat_map db_stop (trace o) = [] /\ In ("RDS: " ++ e) failed
    | inr dbs =>
        map fst (flat_map db_stop (trace o))
        = map DBInstanceIdentifier (filter available dbs)
    end.
Proof.
  apply (every_available_database_tried env_execute unit
           (scripted account_partial) tt); reflexivity.
Defined.

(** X15.  On the Execute path the available gateways are listed once.
    If the listing is refused, no gateway is deleted and the error is
    reported under "NAT Gateway".  Otherwise the gateways are deleted in
    the order of the listing: the deletions of a run are those of a
    prefix of the listing, and of the whole listing when none of them
    fails. *)
Theorem gateways_deleted_in_order (env : Environ) (W : Type)
  (h : Handler W) (w : W) :
  enable_nuke env = true -> dry_run env = false ->
  let o := run h (execute_resource_nuke env) w in
  exists r2 done failed,
    value o = Executed done failed /\
    flat_map gateway_listing (trace o) = [r2] /\
    match r2 with
    | inl e => deletions (trace o) = [] /\ In ("NAT Gateway: " ++ e) failed
    | inr nats =>
        (exists n, map fst (deletions (trace o))
                   = map NatGatewayId (firstn n nats)) /\
        (Forall (fun d => exists u, snd d = inr u) (deletions (trace o)) ->
         map fst (deletions (trace o)) = map NatGatewayId nats)
    end.
Proof.
  intros He Hd. cbv zeta. rewrite (execute_resource_nuke_execute env He Hd).
  destruct (nuke_run h env w)
    as (r1 & t1 & r2 & t2 & r3 & t3 & ok & _ & Hv & _ & _ & _ & Hl & Hdel
        & _ & Hfailed & Hgw).
  exists r2. do 2 eexists. split; [exact Hv |]. split; [exact Hl |].
  rewrite Hdel. destruct r2 as [e | nats].
  - split; [exact Hgw |]. apply Hfailed. cbn. now left.
  - destruct Hgw as [Hall | (pre & g & post & err & Hn & Hd' & _ & _)].
    + rewrite Hall, map_map. cbn [fst]. split; [| reflexivity].
      exists (List.length nats). now rewrite firstn_all.
    + rewrite Hd'. split.
      * exists (S (List.length pre)). rewrite Hn.
        rewrite map_app, map_map. cbn [fst map].
        replace (S (List.length pre)) with (List.length (pre ++ [g])%list)
          by (rewrite length_app; cbn; lia).
        replace (pre ++ g :: post)%list with ((pre ++ [g]) ++ post)%list
          by (now rewrite <- app_assoc).
        rewrite firstn_app, firstn_all, Nat.sub_diag. cbn [firstn].
        now rewrite app_nil_r, map_app.
      * intro Hok. exfalso. apply Forall_app in Hok. destruct Hok as [_ Hok].
        inversion Hok as [| d l [u Hu] _]; subst. discriminate.
Qed.

Lemma gateways_deleted_in_order_witness :
  let o := run (scripted (account_gateway_failure 60))
             (execute_resource_nuke env_execute) tt in
  exists r2 done failed,
    value o = Executed done failed /\
    flat_map gateway_listing (trace o) = [r2] /\
    match r2 with
    | inl e => deletions (trace o) = [] /\ In ("NAT Gateway: " ++ e) failed
    | inr nats =>
        (exists n, map fst (deletions (trace o))
                   = map NatGatewayId (firstn n nats)) /\
        (Forall (fun d => exists u, snd d = inr u) (deletions (trace o)) ->
         map fst (deletions (trace o)) = map NatGatewayId nats)
    end.
Proof.
  apply (gateways_deleted_in_order env_execute unit
           (scripted (account_gateway_failure 60)) tt); reflexivity.
Defined.

(** X16.  In dry-run mode [execute_resource_nuke] makes the five
    listings of the inventory summary and then one "Nuke DRY RUN"
    notification; what it returns, and what the notification lists, is
    the summary of those five answers -- category counts, with an empty
    list when nothing is counted. *)
Theorem dry_run_reports_summary (env : Environ) (W : Type) (h : Handler W) (w : W) :
  enable_nuke env = true -> dry_run env = true ->
  let o := run h (execute_resource_nuke env) w in
  exists r1 r2 r3 r4 r5 ok,
    let resources :=
      flat_map count_line
        [("EC2 Instances", answered_count instance_count r1);
         ("RDS Instances", answered_count (@List.length _) r2);
         ("NAT Gateways", answered_count (@List.length _) r3);
         ("Lambda Functions", answered_count (@List.length _) r4);
         ("S3 Buckets", answered_count (@List.length _) r5)] in
    trace o
    = [Ev (DescribeInstances ["running"; "pending"]) r1;
       Ev DescribeDbInstances r2;
       Ev (DescribeNatGateways ["available"; "pending"]) r3;
       Ev ListFunctions r4;
       Ev ListBuckets r5;
       Ev (SendNtfyAlert (ntfy_topic env) dry_run_title
             (dry_run_message resources) "high" ["test_tube"; "warning"]) ok] /\
    value o = DryRun resources.
Proof.
  intros He Hd. cbv zeta. rewrite (execute_resource_nuke_dry_run env He Hd).
  rewrite run_bind, run_bind, run_call. cbn [value trace world].
  pose proof (counted_count_line (A := list string)) as Hc.
  unfold list_active_resources. cbn [bind call run].
  destruct (h _ (DescribeInstances ["running"; "pending"]) w) as [r1 w1].
  cbn [bind run].
  destruct (h _ DescribeDbInstances w1) as [r2 w2]. cbn [bind run].
  destruct (h _ (DescribeNatGateways ["available"; "pending"]) w2) as [r3 w3].
  cbn [bind run].
  destruct (h _ ListFunctions w3) as [r4 w4]. cbn [bind run].
  destruct (h _ ListBuckets w4) as [r5 w5]. cbn [bind run value trace world].
  exists r1, r2, r3, r4, r5. eexists.
  rewrite !counted_count_line. cbn [flat_map app].
  rewrite !app_nil_r, <- !app_assoc. cbn [app].
  split; reflexivity.
Qed.

Lemma dry_run_reports_summary_witness :
  let o := run (scripted (account 60)) (execute_resource_nuke env_dry_run) tt in
  exists r1 r2 r3 r4 r5 ok,
    let resources :=
      flat_map count_line
        [("EC2 Instances", answered_count instance_count r1);
         ("RDS Instances", answered_count (@List.length _) r2);
         ("NAT Gateways", answered_count (@List.length _) r3);
         ("Lambda Functions", answered_count (@List.length _) r4);
         ("S3 Buckets", answered_count (@List.length _) r5)] in
    trace o
    = [Ev (DescribeInstances ["running"; "pending"]) r1;
       Ev DescribeDbInstances r2;
       Ev (DescribeNatGateways ["available"; "pending"]) r3;
       Ev ListFunctions r4;
       Ev ListBuckets r5;
       Ev (SendNtfyAlert (ntfy_topic env_dry_run) dry_run_title
             (dry_run_message resources) "high" ["test_tube"; "warning"]) ok] /\
    value o = DryRun resources.
Proof.
  apply (dry_run_reports_summary env_dry_run unit (scripted (account 60)) tt);
    reflexivity.
Defined.

(** X17.  [trigger_nuke_warning] makes the five listings and then sends
    the urgent warning, whatever the listings answer.  The warning lists
    the inventory summary; when the summary is empty -- every listing
    refused, or nothing counted -- it says "(Unable to list resources)"
    instead, so an empty account reads like a refused listing. *)
Theorem warning_lists_summary (env : Environ) (cost_info : CostInfo)
  (critical : Q) (W : Type) (h : Handler W) (w : W) :
  let o := run h (trigger_nuke_warning env cost_info critical) w in
  exists r1 r2 r3 r4 r5 ok,
    let resources :=
      flat_map count_line
        [("EC2 Instances", answered_count instance_count r1);
         ("RDS Instances", answered_count (@List.length _) r2);
         ("NAT Gateways", answered_count (@List.length _) r3);
         ("Lambda Functions", answered_count (@List.length _) r4);
         ("S3 Buckets", answered_count (@List.length _) r5)] in
    let message := warning_message cost_info critical resources in
    trace o
    = [Ev (DescribeInstances ["running"; "pending"]) r1;
       Ev DescribeDbInstances r2;
       Ev (DescribeNatGateways ["available"; "pending"]) r3;
       Ev ListFunctions r4;
       Ev ListBuckets r5;
       Ev (SendNtfyAlert (ntfy_topic env) warning_title message
             "urgent" ["rotating_light"; "dollar"; "skull"]) ok] /\
    (resources = [] -> In (Lit "  (Unable to list resources)") message) /\
    (resources <> [] -> In (Lit (bullets resources)) message).
Proof.
  cbv zeta.
  destruct (trigger_nuke_warning_run h env cost_info critical w) as [Ht _].
  cbv zeta in Ht. rewrite Ht. clear Ht.
  unfold list_active_resources. cbn [bind call run].
  destruct (h _ (DescribeInstances ["running"; "pending"]) w) as [r1 w1].
  cbn [bind run].
  destruct (h _ DescribeDbInstances w1) as [r2 w2]. cbn [bind run].
  destruct (h _ (DescribeNatGateways ["available"; "pending"]) w2) as [r3 w3].
  cbn [bind run].
  destruct (h _ ListFunctions w3) as [r4 w4]. cbn [bind run].
  destruct (h _ ListBuckets w4) as [r5 w5]. cbn [bind run value trace world].
  exists r1, r2, r3, r4, r5. eexists.
  rewrite !counted_count_line. cbn [flat_map app].
  rewrite !app_nil_r, <- !app_assoc. cbn [app].
  split; [reflexivity |].
  set (resources := (count_line _ ++ _)%list).
  unfold warning_message. split.
  - intros ->. cbn. tauto.
  - intro Hne. destruct resources as [| x l]; [congruence |]. cbn. tauto.
Qed.

(* ================================================================== *)
(** ** The attempts of each category *)

Section CleanupAttempts.
Context {W : Type} (h : Handler W).

Lemma stop_ec2_attempts (log : Log) (w : W) :
  exists r1 t1,
    trace (run h (stop_ec2 log) w) = Ev (DescribeInstances ["running"]) r1 :: t1 /\
    match r1 with
    | inl _ => t1 = []
    | inr reservations =>
        match instance_ids reservations with
        | [] => t1 = []
        | ids => exists r, t1 = [Ev (StopInstances ids) r]
        end
    end.
Proof.
  unfold stop_ec2. cbn.
  destruct (h _ (DescribeInstances ["running"]) w) as [[e | rs] w1]; cbn.
  - now exists (inl e), [].
  - destruct (instance_ids rs) as [| i ids] eqn:Eids; cbn.
    + exists (inr rs), []. now rewrite Eids.
    + destruct (h _ (StopInstances (i :: ids)) w1) as [r w2].
      exists (inr rs), [Ev (StopInstances (i :: ids)) r]. rewrite Eids.
      split; [destruct r; reflexivity |]. now exists r.
Qed.

Lemma delete_each_attempts (nats : list NatGateway) (log : Log) (w : W) :
  exists ds,
    trace (run h (delete_each nats log) w) = map delete_event ds /\
    (ds = map deleted nats \/
     exists pre g post err,
       nats = (pre ++ g :: post)%list /\
       ds = (map deleted pre ++ [(NatGatewayId g, inl err)])%list).
Proof.
  revert log w. induction nats as [| g rest IH]; intros log w; cbn.
  - exists []. split; [reflexivity | now left].
  - destruct (h _ (DeleteNatGateway (NatGatewayId g)) w) as [[e | []] w1]; cbn.
    + exists [(NatGatewayId g, inl e)]. split; [reflexivity |].
      right. now exists [], g, rest, e.
    + destruct (IH (add_terminated log
                      ("Deleted NAT Gateway: " ++ NatGatewayId g)) w1)
        as (ds & Ht & Hds).
      exists (deleted g :: ds). split; [cbn; now rewrite Ht |].
      destruct Hds as [-> | (pre & g' & post & err & -> & ->)].
      * now left.
      * right. now exists (g :: pre), g', post, err.
Qed.

Lemma delete_nat_gateways_attempts (log : Log) (w : W) :
  exists r2 ds,
    trace (run h (delete_nat_gateways log) w)
    = Ev (DescribeNatGateways ["available"]) r2 :: map delete_event ds /\
    match r2 with
    | inl _ => ds = []
    | inr nats =>
        ds = map deleted nats \/
        exists pre g post err,
          nats = (pre ++ g :: post)%list /\
          ds = (map deleted pre ++ [(NatGatewayId g, inl err)])%list
    end.
Proof.
  unfold delete_nat_gateways. cbn.
  destruct (h _ (DescribeNatGateways ["available"]) w) as [[e | nats] w1]; cbn.
  - now exists (inl e), [].
  - rewrite run_bind. cbn [trace].
    destruct (delete_each_attempts nats log w1) as (ds & Ht & Hds).
    exists (inr nats), ds. split; [| exact Hds].
    rewrite Ht.
    destruct (value (run h (delete_each nats log) w1)) as [log1 [e |]];
      cbn; now rewrite app_nil_r.
Qed.

Lemma stop_each_attempts (dbs : list DBInstance) (log : Log) (w : W) :
  exists ss,
    trace (run h (stop_each dbs log) w) = map stop_event ss /\
    map fst ss = map DBInstanceIdentifier (filter available dbs).
Proof.
  revert log w. induction dbs as [| db rest IH]; intros log w; cbn.
  - now exists [].
  - unfold available at 1.
    destruct (String.eqb (DBInstanceStatus db) "available"); [| apply IH].
    cbn.
    destruct (h _ (StopDbInstance (DBInstanceIdentifier db)) w) as [r w1].
    assert (Hrest : exists ss,
               trace (run h (match r with
                             | inl _ => stop_each rest log
                             | inr _ =>
                                 stop_each rest
                                   (add_terminated log
                                      ("Stopped RDS: " ++ DBInstanceIdentifier db))
                             end) w1) = map stop_event ss /\
               map fst ss = map DBInstanceIdentifier (filter available rest))
      by (destruct r; apply IH).
    destruct Hrest as (ss & Ht & Hs).
    exists ((DBInstanceIdentifier db, r) :: ss). cbn.
    split; [now rewrite Ht | now rewrite Hs].
Qed.

Lemma stop_rds_attempts (log : Log) (w : W) :
  exists r3 ss,
    trace (run h (stop_rds log) w) = Ev DescribeDbInstances r3 :: map stop_event ss /\
    match r3 with
    | inl _ => ss = []
    | inr dbs => map fst ss = map DBInstanceIdentifier (filter available dbs)
    end.
Proof.
  unfold stop_rds. cbn.
  destruct (h _ DescribeDbInstances w) as [[e | dbs] w1]; cbn.
  - now exists (inl e), [].
  - destruct (stop_each_attempts dbs log w1) as (ss & Ht & Hs).
    exists (inr dbs), ss. now rewrite Ht.
Qed.
End CleanupAttempts.

Lemma count_kind_events (k : Kind) (f : string * Result unit -> Event)
  (ds : list (string * Result unit)) :
  (forall d, event_kind (f d) = Mutation) -> k <> Mutation ->
  count_kind k (map f ds) = 0%nat.
Proof.
  intros Hf Hk.
  apply (count_kind_none k (fun k' => k' = Mutation)); [congruence |].
  rewrite Forall_forall. intros e He. apply in_map_iff in He.
  destruct He as (d & <- & _). apply Hf.
Qed.

(** C6, for the failures the blocks catch.  On the Execute path,
    whatever each call answers -- a value or a [ClientError] -- the
    trace is the compute block, the gateway block, the database block
    and one completion notification, and what each block attempts
    depends on its own listing and its own answers only.  The compute
    block lists the running instances and, if there are any, stops them
    in one call.  The gateway block lists the available gateways and
    deletes them in order, up to the first deletion that fails.  The
    database block lists the databases and stops every available one.
    A refused listing leaves its own block without attempts and no
    other.  The notification is the only one of the sequence; its text
    is built from the two returned lists, which hold the entries of the
    calls of the trace. *)
Theorem categories_isolated (env : Environ) (W : Type) (h : Handler W) (w : W) :
  enable_nuke env = true -> dry_run env = false ->
  let o := run h (execute_resource_nuke env) w in
  let done := flat_map succeeded_entry (trace o) in
  let failed := flat_map failed_entry (trace o) in
  exists r1 t1 r2 ds r3 ss ok,
    trace o
    = ((Ev (DescribeInstances ["running"]) r1 :: t1)
       ++ (Ev (DescribeNatGateways ["available"]) r2 :: map delete_event ds)
       ++ (Ev DescribeDbInstances r3 :: map stop_event ss)
       ++ [Ev (SendNtfyAlert (ntfy_topic env) complete_title
                 (complete_message done failed) "urgent" ["skull"; "check"]) ok])%list /\
    value o = Executed done failed /\
    match r1 with
    | inl _ => t1 = []
    | inr reservations =>
        match instance_ids reservations with
        | [] => t1 = []
        | ids => exists r, t1 = [Ev (StopInstances ids) r]
        end
    end /\
    match r2 with
    | inl _ => ds = []
    | inr nats =>
        ds = map deleted nats \/
        exists pre g post err,
          nats = (pre ++ g :: post)%list /\
          ds = (map deleted pre ++ [(NatGatewayId g, inl err)])%list
    end /\
    match r3 with
    | inl _ => ss = []
    | inr dbs => map fst ss = map DBInstanceIdentifier (filter available dbs)
    end /\
    count_kind Notification (trace o) = 1%nat.
Proof.
  intros He Hd. cbv zeta. rewrite (execute_resource_nuke_execute env He Hd).
  pose proof (nuke_blocks h env w) as Hb. cbv zeta in Hb.
  destruct (stop_ec2_attempts h {| terminated := []; errors := [] |} w)
    as (r1 & t1 & T1 & S1).
  remember (run h (stop_ec2 {| terminated := []; errors := [] |}) w) as o1.
  destruct (delete_nat_gateways_attempts h (value o1) (world o1))
    as (r2 & ds & T2 & S2).
  remember (run h (delete_nat_gateways (value o1)) (world o1)) as o2.
  destruct (stop_rds_attempts h (value o2) (world o2)) as (r3 & ss & T3 & S3).
  remember (run h (stop_rds (value o2)) (world o2)) as o3.
  destruct Hb as (ok & Ht & Hv & _).
  destruct (nuke_run h env w)
    as (_ & _ & _ & _ & _ & _ & _ & _ & Hv' & _). cbv zeta in Hv'.
  remember (run h (nuke env) w) as o.
  assert (Hdone : terminated (value o3) = flat_map succeeded_entry (trace o))
    by congruence.
  assert (Hfailed : errors (value o3) = flat_map failed_entry (trace o))
    by congruence.
  rewrite Hdone, Hfailed, T1, T2, T3 in Ht.
  exists r1, t1, r2, ds, r3, ss, ok.
  split; [exact Ht |]. split; [exact Hv' |].
  split; [exact S1 |]. split; [exact S2 |]. split; [exact S3 |].
  rewrite Ht.
  assert (C1 : count_kind Notification
                 (Ev (DescribeInstances ["running"]) r1 :: t1) = 0%nat).
  { apply (count_kind_block Notification); [reflexivity |].
    destruct r1 as [e | rs]; [subst t1; constructor |].
    destruct (instance_ids rs); [subst t1; constructor |].
    destruct S1 as [r ->]. repeat constructor. }
  rewrite !count_kind_app, C1.
  change (Ev (DescribeNatGateways ["available"]) r2 :: map delete_event ds)
    with ([Ev (DescribeNatGateways ["available"]) r2] ++ map delete_event ds)%list.
  change (Ev DescribeDbInstances r3 :: map stop_event ss)
    with ([Ev DescribeDbInstances r3] ++ map stop_event ss)%list.
  rewrite !count_kind_app.
  rewrite !count_kind_events by (reflexivity || discriminate).
  reflexivity.
Qed.

Lemma categories_isolated_witness :
  let o := run (scripted (account_gateway_failure 60))
             (execute_resource_nuke env_execute) tt in
  let done := flat_map succeeded_entry (trace o) in
  let failed := flat_map failed_entry (trace o) in
  exists r1 t1 r2 ds r3 ss ok,
    trace o
    = ((Ev (DescribeInstances ["running"]) r1 :: t1)
       ++ (Ev (DescribeNatGateways ["available"]) r2 :: map delete_event ds)
       ++ (Ev DescribeDbInstances r3 :: map stop_event ss)
       ++ [Ev (SendNtfyAlert (ntfy_topic env_execute) complete_title
                 (complete_message done failed) "urgent" ["skull"; "check"]) ok])%list /\
    value o = Executed done failed /\
    match r1 with
    | inl _ => t1 = []
    | inr reservations =>
        match instance_ids reservations with
        | [] => t1 = []
        | ids => exists r, t1 = [Ev (StopInstances ids) r]
        end
    end /\
    match r2 with
    | inl _ => ds = []
    | inr nats =>
        ds = map deleted nats \/
        exists pre g post err,
          nats = (pre ++ g :: post)%list /\
          ds = (map deleted pre ++ [(NatGatewayId g, inl err)])%list
    end /\
    match r3 with
    | inl _ => ss = []
    | inr dbs => map fst ss = map DBInstanceIdentifier (filter available dbs)
    end /\
    count_kind Notification (trace o) = 1%nat.
Proof.
  apply (categories_isolated env_execute unit
           (scripted (account_gateway_failure 60)) tt); reflexivity.
Defined.

(** A handler that raises nothing that is not caught gives the run of
    [run]. *)
Lemma run_faultless {A W : Type} (h : Handler W) (p : Prog A) (w : W) :
  run_faulty (faultless h) p w
  = (Returns (value (run h p w)), trace (run h p w)).
Proof.
  revert w. induction p as [a | R c k IH]; intro w; cbn [run_faulty run].
  - reflexivity.
  - unfold faultless at 1. destruct (h R c w) as [r w1].
    rewrite IH. reflexivity.
Qed.

(** C6 as stated fails when the failure is not a [ClientError].  The
    connection drops while gateway [nat-2] is being deleted: the
    exception leaves [execute_resource_nuke], the database category is
    never attempted (not even listed) and no completion notification is
    sent. *)
Lemma uncaught_failure_blocks_later_categories :
  let out := run_faulty (connection_lost (account 60) "nat-2")
               (execute_resource_nuke env_execute) tt in
  fst out = Raises (DeleteNatGateway "nat-2") "EndpointConnectionError" /\
  deletions (snd out) = [("nat-1", inr tt)] /\
  flat_map db_listing (snd out) = [] /\
  flat_map db_stop (snd out) = [] /\
  count_kind Notification (snd out) = 0%nat.
Proof.
  cbv zeta. repeat split; reflexivity.
Qed.
